(** * Prescription Verifier client: a shallow embedding of [streamlit_app.py]

    The script is a Streamlit page: it reads an API key from the secret
    store, posts a JSON payload to a fixed endpoint, classifies the HTTP
    status, and renders the decoded answer as widgets.

    Modelling choices.
    - A Python [str] is a list of Unicode code points ([pystr]); the
      whitespace and line-boundary tables are the ones of [str.strip] and
      [str.splitlines].
    - A decoded JSON document is the tree [JSON]; a Python [dict] is an
      association list in insertion order, looked up by first match.
    - The script's effects are threaded through a state-and-exception monad
      [M] over a [World]: the secret store, the trace of widget calls, the
      trace of the calls of [requests.post] and the session state.
      [st.stop()] ends the run ([Stopped]); an uncaught Python exception
      ends it with [Raised].  Widget calls of the toolkit are recorded in
      the trace; those given a string, a number or a flag return, and
      [st.metric], which refuses a list or a dict as its value, raises on
      one.
    - Functions of the libraries the script calls whose tables are not part
      of the repository ([str.upper], [datetime.fromisoformat], [strftime],
      [str()] of a float, list or dict, and whether [pd.DataFrame] builds a
      table from a value) are variables of the section.
    - The page around the two click handlers (title, input widgets, the raw
      JSON tab, the sidebar) takes no part in the properties and is left
      out; the handlers take as arguments the values the widgets return,
      [clicked] being what [st.button] returned. *)

From Stdlib Require Import List ZArith NArith Bool Lia String Ascii.
From Stdlib Require Import DecimalString Floats.SpecFloat.
Import ListNotations.

Set Warnings "-register-all".

Local Open Scope list_scope.

(** ** Python strings *)

Definition pystr := list N.

(** An ASCII literal as a Python string. *)
Definition py (s : string) : pystr :=
  map N_of_ascii (list_ascii_of_string s).

Fixpoint str_eqb (a b : pystr) : bool :=
  match a, b with
  | [], [] => true
  | x :: a', y :: b' => (x =? y)%N && str_eqb a' b'
  | _, _ => false
  end.

(** Truth value of a string: [bool(s)]. *)
Definition str_truthy (s : pystr) : bool :=
  match s with [] => false | _ :: _ => true end.

(** [c.isspace()] for one code point. *)
Definition isspace (c : N) : bool :=
  ((9 <=? c) && (c <=? 13) || (28 <=? c) && (c <=? 32)
   || (c =? 133) || (c =? 160) || (c =? 5760)
   || (8192 <=? c) && (c <=? 8202)
   || (c =? 8232) || (c =? 8233) || (c =? 8239) || (c =? 8287)
   || (c =? 12288))%N.

(** Line boundaries recognised by [str.splitlines]. *)
Definition is_linebreak (c : N) : bool :=
  ((10 <=? c) && (c <=? 13) || (28 <=? c) && (c <=? 30)
   || (c =? 133) || (c =? 8232) || (c =? 8233))%N.

Fixpoint lstrip (s : pystr) : pystr :=
  match s with
  | [] => []
  | c :: rest => if isspace c then lstrip rest else s
  end.

Definition rstrip (s : pystr) : pystr := rev (lstrip (rev s)).

(** [s.strip()] *)
Definition strip (s : pystr) : pystr := rstrip (lstrip s).

(** [s.splitlines()]: [cur] is the line being read, reversed. *)
Fixpoint splitlines_from (cur : pystr) (s : pystr) : list pystr :=
  match s with
  | [] => match cur with [] => [] | _ :: _ => [rev cur] end
  | c :: rest =>
      if is_linebreak c then
        rev cur ::
          match rest with
          | c' :: rest' =>
              if ((c =? 13) && (c' =? 10))%N then splitlines_from [] rest'
              else splitlines_from [] rest
          | [] => splitlines_from [] rest
          end
      else splitlines_from (c :: cur) rest
  end.

Definition splitlines (s : pystr) : list pystr := splitlines_from [] s.

(** [s.replace(old, new)] for a one-character [old]. *)
Definition replace_char (old : N) (new : pystr) (s : pystr) : pystr :=
  flat_map (fun c => if (c =? old)%N then new else [c]) s.

(** [str(n)] for an integer. *)
Definition str_of_int (z : Z) : pystr :=
  py (NilZero.string_of_int (Z.to_int z)).

(** ** Decoded JSON values, as Python objects *)

Inductive JSON : Type :=
| JNull
| JBool (b : bool)
| JInt (z : Z)
| JFloat (f : spec_float)
| JStr (s : pystr)
| JList (l : list JSON)
| JDict (d : list (pystr * JSON)).

(** [bool(v)] *)
Definition truthy (v : JSON) : bool :=
  match v with
  | JNull => false
  | JBool b => b
  | JInt z => negb (z =? 0)%Z
  | JFloat f => match f with S754_zero _ => false | _ => true end
  | JStr s => str_truthy s
  | JList l => match l with [] => false | _ => true end
  | JDict d => match d with [] => false | _ => true end
  end.

Fixpoint lookup {V : Type} (k : pystr) (d : list (pystr * V)) : option V :=
  match d with
  | [] => None
  | (k', v) :: rest => if str_eqb k' k then Some v else lookup k rest
  end.

(** ** The world the script runs in *)

Inductive Exn : Type :=
| AttributeError
| TypeError
| KeyError
| ValueError
| JSONDecodeError
| RequestException
| StreamlitAPIException.

(** What the script reads of a [requests.Response]: [json] is the result of
    [resp.json()], [None] when the body does not decode (the call raises). *)
Record Response : Type := {
  status_code : Z;
  text : pystr;
  json : option JSON
}.

Record HttpRequest : Type := {
  url : pystr;
  headers : list (pystr * pystr);
  body : JSON;
  timeout : Z
}.

(** What a call of [requests.post] comes to: a response, or an exception of
    [requests] (no connection, a timeout, a header it refuses). *)
Inductive NetResult : Type :=
| Responds (r : Response)
| Fails.

Inductive UiEvent : Type :=
| StError (msg : pystr)
| StWarning (msg : pystr)
| StSuccess (msg : pystr)
| StInfo (msg : pystr)
| StCaption (msg : pystr)
| StSubheader (msg : pystr)
| StSpinner (msg : pystr)
| StDivider
| StColumns (n : Z)
| StMetric (label : pystr) (value : JSON)
| StDataframe (data : JSON)
| StExpander (label : pystr) (expanded : bool).

Record World : Type := {
  secret_api_key : option pystr;
  remote : HttpRequest -> NetResult;
  ui : list UiEvent;
  http_log : list HttpRequest;
  last_single_raw : option JSON;
  last_batch_raw : option JSON
}.

Inductive Outcome (A : Type) : Type :=
| Returned (a : A)
| Stopped
| Raised (e : Exn).

Arguments Returned {A} a.
Arguments Stopped {A}.
Arguments Raised {A} e.

Definition M (A : Type) : Type := World -> Outcome A * World.

Definition ret {A} (a : A) : M A := fun w => (Returned a, w).

Definition bind {A B} (m : M A) (f : A -> M B) : M B :=
  fun w =>
    match m w with
    | (Returned a, w') => f a w'
    | (Stopped, w') => (Stopped, w')
    | (Raised e, w') => (Raised e, w')
    end.

Definition raise {A} (e : Exn) : M A := fun w => (Raised e, w).

(** [try: m  except Exception: h] -- [st.stop()] is not an [Exception]. *)
Definition try_except {A} (m : M A) (h : M A) : M A :=
  fun w =>
    match m w with
    | (Raised _, w') => h w'
    | r => r
    end.

Declare Scope monad_scope.
Delimit Scope monad_scope with monad.
Notation "x <- m ;; k" := (bind m (fun x => k))
  (at level 61, m at next level, right associativity) : monad_scope.
Notation "m ;; k" := (bind m (fun _ => k))
  (at level 61, right associativity) : monad_scope.
Local Open Scope monad_scope.

(** The world after the widget calls [evs], and after the request [rq]. *)
Definition log_ui (evs : list UiEvent) (w : World) : World :=
  {| secret_api_key := secret_api_key w; remote := remote w;
     ui := ui w ++ evs; http_log := http_log w;
     last_single_raw := last_single_raw w;
     last_batch_raw := last_batch_raw w |}.

Definition log_http (rq : HttpRequest) (w : World) : World :=
  {| secret_api_key := secret_api_key w; remote := remote w;
     ui := ui w; http_log := http_log w ++ [rq];
     last_single_raw := last_single_raw w;
     last_batch_raw := last_batch_raw w |}.

(** One widget call: [st.error(..)], [st.metric(..)], ... *)
Definition emit (e : UiEvent) : M unit :=
  fun w => (Returned tt, log_ui [e] w).

(** [col.metric(label, value)]: the value may be None, a number or a
    string; on anything else the toolkit raises. *)
Definition st_metric (label : pystr) (value : JSON) : M unit :=
  match value with
  | JList _ | JDict _ => raise StreamlitAPIException
  | _ => emit (StMetric label value)
  end.

(** [st.stop()] *)
Definition st_stop {A} : M A := fun w => (Stopped, w).

(** [requests.post(url, headers=..., json=..., timeout=...)] *)
Definition requests_post (u : pystr) (hs : list (pystr * pystr))
    (payload : JSON) (t : Z) : M Response :=
  fun w =>
    let rq := {| url := u; headers := hs; body := payload; timeout := t |} in
    match remote w rq with
    | Responds r => (Returned r, log_http rq w)
    | Fails => (Raised RequestException, log_http rq w)
    end.

Definition set_last_single_raw (v : JSON) : M unit :=
  fun w => (Returned tt,
            {| secret_api_key := secret_api_key w; remote := remote w;
               ui := ui w; http_log := http_log w;
               last_single_raw := Some v;
               last_batch_raw := last_batch_raw w |}).

Definition set_last_batch_raw (v : JSON) : M unit :=
  fun w => (Returned tt,
            {| secret_api_key := secret_api_key w; remote := remote w;
               ui := ui w; http_log := http_log w;
               last_single_raw := last_single_raw w;
               last_batch_raw := Some v |}).

(** [resp.ok] of [requests]: false exactly when [raise_for_status] would
    raise, that is for a status from 400 to 599. *)
Definition ok (r : Response) : bool :=
  negb ((400 <=? status_code r) && (status_code r <? 600))%Z.

(** [resp.json()] *)
Definition resp_json (r : Response) : M JSON :=
  match json r with
  | Some v => ret v
  | None => raise JSONDecodeError
  end.

(** [obj.get(k, default)]: only a [dict] has the method. *)
Definition py_get (obj : JSON) (k : pystr) (default : JSON) : M JSON :=
  match obj with
  | JDict d => match lookup k d with Some v => ret v | None => ret default end
  | _ => raise AttributeError
  end.

(** [len(obj)] *)
Definition py_len (obj : JSON) : M Z :=
  match obj with
  | JStr s => ret (Z.of_nat (List.length s))
  | JList l => ret (Z.of_nat (List.length l))
  | JDict d => ret (Z.of_nat (List.length d))
  | _ => raise TypeError
  end.

(** The elements [for r in obj] runs over. *)
Definition py_iter (obj : JSON) : M (list JSON) :=
  match obj with
  | JStr s => ret (map (fun c => JStr [c]) s)
  | JList l => ret l
  | JDict d => ret (map (fun kv => JStr (fst kv)) d)
  | _ => raise TypeError
  end.

(** [obj[k]] for a string key. *)
Definition py_getitem (obj : JSON) (k : pystr) : M JSON :=
  match obj with
  | JDict d => match lookup k d with Some v => ret v | None => raise KeyError end
  | _ => raise TypeError
  end.

Arguments py s%_string.

(** The non-ASCII characters of the script's messages, by code point. *)
Definition warning_sign : pystr := [9888; 65039]%N.
Definition cross_mark : pystr := [10060]%N.
Definition check_mark : pystr := [9989]%N.
Definition en_dash : pystr := [8211]%N.
Definition em_dash : pystr := [8212]%N.
Definition ellipsis : pystr := [8230]%N.
Definition white_circle : pystr := [9898]%N.
Definition green_circle : pystr := [128994]%N.
Definition red_circle : pystr := [128308]%N.
Definition yellow_circle : pystr := [128993]%N.
Definition stethoscope : pystr := [129658]%N.
Definition pill : pystr := [128138]%N.

(** ** The script *)

Section Client.

(** [str.upper], [str()] of a float, list or dict, and the [datetime]
    functions the date formatter calls. *)
Variable upper : pystr -> pystr.
Variable str_other : JSON -> pystr.
Variable datetime : Type.
Variable fromisoformat : pystr -> option datetime.
Variable strftime : datetime -> pystr -> pystr.

(** [pd.DataFrame(v)]: the exception it raises on [v], [None] when it
    builds the table. *)
Variable DataFrame_error : JSON -> option Exn.

(** What [f"{v}"] inserts for a value. *)
Definition format_value (v : JSON) : pystr :=
  match v with
  | JStr s => s
  | JNull => py "None"
  | JBool true => py "True"
  | JBool false => py "False"
  | JInt z => str_of_int z
  | _ => str_other v
  end.

Definition API_URL : pystr :=
  py "https://sqwevzxsufrbsyjrucuw.supabase.co/functions/v1/verify-prescription-api".

(** [st.secrets["api_key"]] *)
Definition st_secrets_api_key : M pystr :=
  fun w =>
    match secret_api_key w with
    | Some k => (Returned k, w)
    | None => (Raised KeyError, w)
    end.

Definition get_api_key : M (option pystr) :=
  try_except (k <- st_secrets_api_key ;; ret (Some k)) (ret None).

(** [bool(api_key)] for [str | None]. *)
Definition key_truthy (k : option pystr) : bool :=
  match k with
  | Some s => str_truthy s
  | None => false
  end.

(** The header value: only reached with a key. *)
Definition key_value (k : option pystr) : pystr :=
  match k with
  | Some s => s
  | None => []
  end.

Definition call_api (payload : JSON) : M JSON :=
  api_key <- get_api_key ;;
  (if negb (key_truthy api_key) then
     emit (StError (warning_sign ++
       py " API key not found. Add `api_key` to your Streamlit secrets.")) ;;
     st_stop
   else ret tt) ;;
  resp <- requests_post API_URL
            [(py "Content-Type", py "application/json");
             (py "x-api-key", key_value api_key)]
            payload 30 ;;
  (if (status_code resp =? 401)%Z then
     emit (StError (cross_mark ++ py " 401 " ++ en_dash ++
                    py " Missing or invalid API key.")) ;;
     st_stop
   else if (status_code resp =? 403)%Z then
     emit (StError (cross_mark ++ py " 403 " ++ en_dash ++
                    py " API key disabled or unauthorized role.")) ;;
     st_stop
   else if (status_code resp =? 400)%Z then
     emit (StError (cross_mark ++ py " 400 " ++ en_dash ++
                    py " Bad request: " ++ text resp)) ;;
     st_stop
   else if (status_code resp =? 405)%Z then
     emit (StError (cross_mark ++ py " 405 " ++ en_dash ++
                    py " Method not allowed.")) ;;
     st_stop
   else if negb (ok resp) then
     emit (StError (cross_mark ++ py " " ++ str_of_int (status_code resp) ++
                    py " " ++ en_dash ++ py " " ++ text resp)) ;;
     st_stop
   else ret tt) ;;
  resp_json resp.

(** [iso.replace("Z", "+00:00")]: only a [str] has the method. *)
Definition py_replace_Z (iso : JSON) : M pystr :=
  match iso with
  | JStr s => ret (replace_char 90%N (py "+00:00") s)
  | _ => raise AttributeError
  end.

(** [datetime.fromisoformat(s)] *)
Definition datetime_fromisoformat (s : pystr) : M datetime :=
  match fromisoformat s with
  | Some d => ret d
  | None => raise ValueError
  end.

Definition fmt_date (iso : JSON) : M JSON :=
  if negb (truthy iso) then ret (JStr em_dash)
  else
    try_except
      (s <- py_replace_Z iso ;;
       d <- datetime_fromisoformat s ;;
       ret (JStr (strftime d (py "%b %d, %Y %H:%M UTC"))))
      (ret iso).

Definition colors : list (pystr * pystr) :=
  [(py "active", green_circle); (py "expired", red_circle);
   (py "used", yellow_circle); (py "revoked", red_circle)].

(** [colors.get(status, default)]: a list or dict is not hashable. *)
Definition colors_get (status : JSON) (default : pystr) : M pystr :=
  match status with
  | JStr s => match lookup s colors with Some c => ret c | None => ret default end
  | JList _ | JDict _ => raise TypeError
  | _ => ret default
  end.

(** [status.upper()] *)
Definition py_upper (status : JSON) : M pystr :=
  match status with
  | JStr s => ret (upper s)
  | _ => raise AttributeError
  end.

Definition status_badge (status : JSON) : M pystr :=
  c <- colors_get status white_circle ;;
  u <- py_upper status ;;
  ret (c ++ py " " ++ u).

(** [pd.DataFrame(meds)] *)
Definition pd_DataFrame (meds : JSON) : M unit :=
  match DataFrame_error meds with
  | Some e => raise e
  | None => ret tt
  end.

Definition render_single_result (data : JSON) : M unit :=
  valid <- py_get data (py "valid") JNull ;;
  if negb (truthy valid) then
    err <- py_get data (py "error") (JStr (py "Unknown error")) ;;
    emit (StError (cross_mark ++ py " Invalid prescription " ++ em_dash ++
                   py " " ++ format_value err))
  else
    emit (StSuccess (check_mark ++ py " Valid Prescription")) ;;
    emit (StColumns 3) ;;
    rx <- py_get data (py "prescription_number") (JStr em_dash) ;;
    st_metric (py "Rx Number") rx ;;
    status <- py_get data (py "status") (JStr em_dash) ;;
    badge <- status_badge status ;;
    st_metric (py "Status") (JStr badge) ;;
    patient <- py_get data (py "patient_name") (JStr em_dash) ;;
    st_metric (py "Patient") patient ;;
    emit (StColumns 3) ;;
    doctor <- py_get data (py "doctor_name") (JStr em_dash) ;;
    st_metric (py "Doctor") doctor ;;
    org <- py_get data (py "organization") (JStr em_dash) ;;
    st_metric (py "Organization") org ;;
    pid <- py_get data (py "patient_id") (JStr em_dash) ;;
    st_metric (py "Patient ID") pid ;;
    emit (StColumns 2) ;;
    created <- py_get data (py "created_at") JNull ;;
    issued <- fmt_date created ;;
    st_metric (py "Issued") issued ;;
    until <- py_get data (py "valid_until") JNull ;;
    valid_until <- fmt_date until ;;
    st_metric (py "Valid Until") valid_until ;;
    diagnosis <- py_get data (py "diagnosis") JNull ;;
    (if truthy diagnosis then
       d <- py_getitem data (py "diagnosis") ;;
       emit (StInfo (stethoscope ++ py " **Diagnosis:** " ++ format_value d))
     else ret tt) ;;
    meds <- py_get data (py "medications") (JList []) ;;
    if truthy meds then
      emit (StSubheader (pill ++ py " Medications")) ;;
      pd_DataFrame meds ;;
      emit (StDataframe meds)
    else ret tt.

(** [sum(1 for r in results if r.get("valid"))] *)
Fixpoint count_valid (rs : list JSON) : M Z :=
  match rs with
  | [] => ret 0%Z
  | r :: rest =>
      v <- py_get r (py "valid") JNull ;;
      n <- count_valid rest ;;
      ret ((if truthy v then 1 else 0) + n)%Z
  end.

(** The three numbers [render_batch_results] computes before drawing. *)
Definition batch_summary (results : JSON) : M (Z * Z * Z) :=
  total <- py_len results ;;
  rs <- py_iter results ;;
  valid_count <- count_valid rs ;;
  let invalid_count := (total - valid_count)%Z in
  ret (total, valid_count, invalid_count).

(** [for i, r in enumerate(results, 1): ...] *)
Fixpoint render_each (total : Z) (i : Z) (rs : list JSON) : M unit :=
  match rs with
  | [] => ret tt
  | r :: rest =>
      rx <- py_get r (py "prescription_number") JNull ;;
      let label :=
        if truthy rx then rx else JStr (py "Result #" ++ str_of_int i) in
      v <- py_get r (py "valid") JNull ;;
      emit (StExpander
              ((if truthy v then check_mark else cross_mark) ++ py " " ++
               format_value label)
              (total <=? 3)%Z) ;;
      render_single_result r ;;
      render_each total (i + 1) rest
  end.

Definition render_batch_results (results : JSON) : M unit :=
  s <- batch_summary results ;;
  let '(total, valid_count, invalid_count) := s in
  emit (StColumns 3) ;;
  st_metric (py "Total") (JInt total) ;;
  st_metric (check_mark ++ py " Valid") (JInt valid_count) ;;
  st_metric (cross_mark ++ py " Invalid") (JInt invalid_count) ;;
  emit StDivider ;;
  rs <- py_iter results ;;
  render_each total 1 rs.

(** Line 139: the payload of the single tab. *)
Definition single_payload (input_type value : pystr) : JSON :=
  if str_eqb input_type (py "Token")
  then JDict [(py "token", JStr (strip value))]
  else JDict [(py "url", JStr (strip value))].

(** Lines 138-143: [clicked] is what [st.button] returned. *)
Definition tab_single (input_type value : pystr) (clicked : bool) : M unit :=
  if clicked then
    let payload := single_payload input_type value in
    emit (StSpinner (py "Verifying" ++ ellipsis)) ;;
    result <- call_api payload ;;
    set_last_single_raw result ;;
    render_single_result result
  else ret tt.

(** Line 162: the entered items. *)
Definition batch_items (raw_input : pystr) : list pystr :=
  map strip (filter (fun line => str_truthy (strip line)) (splitlines raw_input)).

(** Lines 167-169: the cap on a request. *)
Definition cap_items (items : list pystr) : M (list pystr) :=
  if (50 <? List.length items)%nat then
    emit (StWarning (warning_sign ++
      py " Maximum 50 items per request. Only the first 50 will be sent.")) ;;
    ret (firstn 50 items)
  else ret items.

(** Lines 171-173: the payload of the batch tab. *)
Definition batch_payload (batch_type : pystr) (items : list pystr) : JSON :=
  if str_eqb batch_type (py "Tokens")
  then JDict [(py "tokens", JList (map JStr items))]
  else JDict [(py "urls", JList (map JStr items))].

(** Line 178: [result.get("results", [result])]. *)
Definition results_list (result : JSON) : M JSON :=
  py_get result (py "results") (JList [result]).

(** Lines 162-179: [clicked] is what [st.button] returned. *)
Definition tab_batch (batch_type raw_input : pystr) (clicked : bool) : M unit :=
  let items := batch_items raw_input in
  (if match items with [] => false | _ => true end then
     emit (StCaption (str_of_int (Z.of_nat (List.length items)) ++
                      py " item(s) entered " ++ em_dash ++
                      py " max 50 allowed per request."))
   else ret tt) ;;
  if clicked then
    items <- cap_items items ;;
    let payload := batch_payload batch_type items in
    emit (StSpinner (py "Verifying " ++
                     str_of_int (Z.of_nat (List.length items)) ++
                     py " prescription(s)" ++ ellipsis)) ;;
    result <- call_api payload ;;
    set_last_batch_raw result ;;
    rl <- results_list result ;;
    render_batch_results rl
  else ret tt.

End Client.

(** * Vocabulary of the properties *)

Definition pystr_eq_dec : forall a b : pystr, {a = b} + {a <> b} :=
  list_eq_dec N.eq_dec.

(** A string made of whitespace only (the empty string included). *)
Definition blank (s : pystr) : bool := forallb isspace s.

(** No whitespace at either end. *)
Definition trimmed (s : pystr) : Prop :=
  match s with
  | [] => True
  | c :: _ => isspace c = false /\ isspace (last s c) = false
  end.

(** An order-preserving selection of elements of a list. *)
Inductive Subseq {A : Type} : list A -> list A -> Prop :=
| Subseq_nil : Subseq [] []
| Subseq_skip x l1 l2 : Subseq l1 l2 -> Subseq l1 (x :: l2)
| Subseq_take x l1 l2 : Subseq l1 l2 -> Subseq (x :: l1) (x :: l2).

(** The comprehension over an arbitrary list of lines. *)
Definition trimmed_nonblank (lines : list pystr) : list pystr :=
  map strip (filter (fun line => str_truthy (strip line)) lines).

(** The error kinds of the client, and the message the script shows for
    each. *)
Inductive VerificationError : Type :=
| MissingCredential
| Unauthorized
| Forbidden
| BadRequest (body : pystr)
| MethodNotAllowed
| ServiceError (status : Z) (body : pystr).

Definition shown (e : VerificationError) : pystr :=
  match e with
  | MissingCredential =>
      warning_sign ++
      py " API key not found. Add `api_key` to your Streamlit secrets."
  | Unauthorized =>
      cross_mark ++ py " 401 " ++ en_dash ++ py " Missing or invalid API key."
  | Forbidden =>
      cross_mark ++ py " 403 " ++ en_dash ++
      py " API key disabled or unauthorized role."
  | BadRequest b =>
      cross_mark ++ py " 400 " ++ en_dash ++ py " Bad request: " ++ b
  | MethodNotAllowed =>
      cross_mark ++ py " 405 " ++ en_dash ++ py " Method not allowed."
  | ServiceError s b =>
      cross_mark ++ py " " ++ str_of_int s ++ py " " ++ en_dash ++ py " " ++ b
  end.

(** The one request [call_api] issues with the key [k]. *)
Definition post_request (k : pystr) (payload : JSON) : HttpRequest :=
  {| url := API_URL;
     headers := [(py "Content-Type", py "application/json");
                 (py "x-api-key", k)];
     body := payload;
     timeout := 30 |}.

(** The outcome of [resp.json()]. *)
Definition decoded (r : Response) : Outcome JSON :=
  match json r with
  | Some v => Returned v
  | None => Raised JSONDecodeError
  end.

(** A fresh run: the given secret, a service that always answers the same
    way, nothing drawn or sent yet. *)
Definition fresh_world (key : option pystr) (answer : NetResult) : World :=
  {| secret_api_key := key; remote := fun _ => answer;
     ui := []; http_log := [];
     last_single_raw := None; last_batch_raw := None |}.

Definition token_payload : JSON := JDict [(py "token", JStr (py "abc-123"))].

(** A JSON array. *)
Definition is_sequence (v : JSON) : bool :=
  match v with
  | JList _ => true
  | _ => false
  end.

Definition request_keys : list pystr :=
  [py "token"; py "url"; py "tokens"; py "urls"].

(** The keys of an object, in order. *)
Definition keys_of (v : JSON) : list pystr :=
  match v with
  | JDict d => map fst d
  | _ => []
  end.

(** How many entries of a body are keyed by one of the four request keys. *)
Definition count_request_keys (v : JSON) : nat :=
  List.length (filter (fun k => existsb (str_eqb k) request_keys) (keys_of v)).

Definition is_string (v : JSON) : bool :=
  match v with
  | JStr _ => true
  | _ => false
  end.

Definition is_string_array (v : JSON) : bool :=
  match v with
  | JList l => forallb is_string l
  | _ => false
  end.

(** [w'] extends [w] by widget calls that all satisfy [P] and by at most
    [n] HTTP requests. *)
Definition extends (P : UiEvent -> Prop) (n : nat) (w w' : World) : Prop :=
  (exists evs, ui w' = ui w ++ evs /\ Forall P evs)
  /\ (exists rqs, http_log w' = http_log w ++ rqs /\ List.length rqs <= n).

Definition runs (P : UiEvent -> Prop) (n : nat) {A} (m : M A) : Prop :=
  forall w, extends P n w (snd (m w)).

Definition not_warning (e : UiEvent) : Prop :=
  match e with
  | StWarning _ => False
  | _ => True
  end.

Definition cap_warning : pystr :=
  warning_sign ++
  py " Maximum 50 items per request. Only the first 50 will be sent.".

(** A verification result as the data model has it: an object whose [valid]
    entry, when there is one, is a boolean. *)
Definition is_result (r : JSON) : bool :=
  match r with
  | JDict d =>
      match lookup (py "valid") d with
      | None | Some (JBool _) => true
      | Some _ => false
      end
  | _ => false
  end.

(** [valid = true] *)
Definition valid_is_true (r : JSON) : bool :=
  match r with
  | JDict d =>
      match lookup (py "valid") d with
      | Some (JBool true) => true
      | _ => false
      end
  | _ => false
  end.

(** [bool(r.get("valid"))] for an object. *)
Definition valid_truthy (r : JSON) : bool :=
  match r with
  | JDict d =>
      match lookup (py "valid") d with
      | Some v => truthy v
      | None => false
      end
  | _ => false
  end.

Definition is_dict (r : JSON) : bool :=
  match r with
  | JDict _ => true
  | _ => false
  end.

Definition date_format : pystr := py "%b %d, %Y %H:%M UTC".

(** The text handed to the parser: every "Z" replaced by "+00:00". *)
Definition with_utc_offset (s : pystr) : pystr :=
  replace_char 90%N (py "+00:00") s.

Definition known_statuses : list pystr :=
  [py "active"; py "expired"; py "used"; py "revoked"].

(** [d.get(k, dflt)] as a value. *)
Definition get_or (d : list (pystr * JSON)) (k : pystr) (dflt : JSON) : JSON :=
  match lookup k d with
  | Some v => v
  | None => dflt
  end.

Definition not_error (e : UiEvent) : Prop :=
  match e with
  | StError _ => False
  | _ => True
  end.

(** A computation that leaves the observation [f] of the world as it
    was. *)
Definition preserves {X A : Type} (f : World -> X) (m : M A) : Prop :=
  forall w, f (snd (m w)) = f w.

(** The two slots of the session state. *)
Definition session (w : World) : option JSON * option JSON :=
  (last_single_raw w, last_batch_raw w).

(** The part of the world the script only reads. *)
Definition surroundings (w : World) : option pystr * (HttpRequest -> NetResult) :=
  (secret_api_key w, remote w).

Definition any_event (e : UiEvent) : Prop := True.


Definition is_error_box (e : UiEvent) : bool :=
  match e with
  | StError _ => true
  | _ => false
  end.

(** What the batch loop draws for results that are all invalid, counted
    from [i]: per result an expander under the cross mark, labelled by the
    prescription number or by the position, and the error box. *)
Fixpoint invalid_boxes (str_other : JSON -> pystr) (total i : Z)
    (ds : list (list (pystr * JSON))) : list UiEvent :=
  match ds with
  | [] => []
  | d :: rest =>
      let rx := get_or d (py "prescription_number") JNull in
      let label :=
        if truthy rx then rx else JStr (py "Result #" ++ str_of_int i) in
      [StExpander (cross_mark ++ py " " ++ format_value str_other label)
                  (total <=? 3)%Z;
       StError (cross_mark ++ py " Invalid prescription " ++ em_dash ++
                py " " ++
                format_value str_other
                  (get_or d (py "error") (JStr (py "Unknown error"))))]
      ++ invalid_boxes str_other total (i + 1) rest
  end.

Definition single_spinner : UiEvent := StSpinner (py "Verifying" ++ ellipsis).

Definition batch_caption (n : nat) : UiEvent :=
  StCaption (str_of_int (Z.of_nat n) ++ py " item(s) entered " ++ em_dash ++
             py " max 50 allowed per request.").

Definition batch_spinner (n : nat) : UiEvent :=
  StSpinner (py "Verifying " ++ str_of_int (Z.of_nat n) ++
             py " prescription(s)" ++ ellipsis).

(** The world in which the batch handler reaches [call_api]. *)
Definition before_batch_call (items : list pystr) (w : World) : World :=
  log_ui ([batch_caption (List.length items)] ++
          (if (50 <? List.length items)%nat
           then [StWarning cap_warning] else []) ++
          [batch_spinner (List.length (firstn 50 items))]) w.

(** The exception a status that is not a string ends in. *)
Definition status_exception (status : JSON) : Exn :=
  match status with
  | JList _ | JDict _ => TypeError
  | _ => AttributeError
  end.

(** The values [st.metric] takes. *)
Definition metric_accepts (v : JSON) : bool :=
  match v with
  | JList _ | JDict _ => false
  | _ => true
  end.

(** A date entry whose formatted form [st.metric] takes: the formatter
    hands back a string, or the entry itself when it is truthy and not a
    string. *)
Definition date_drawable (v : JSON) : bool :=
  negb (truthy v) || metric_accepts v.

(** The entries a valid result shows as metrics, the status apart, are
    values [st.metric] takes. *)
Definition metrics_drawable (d : list (pystr * JSON)) : bool :=
  metric_accepts (get_or d (py "prescription_number") (JStr em_dash))
  && metric_accepts (get_or d (py "patient_name") (JStr em_dash))
  && metric_accepts (get_or d (py "doctor_name") (JStr em_dash))
  && metric_accepts (get_or d (py "organization") (JStr em_dash))
  && metric_accepts (get_or d (py "patient_id") (JStr em_dash))
  && date_drawable (get_or d (py "created_at") JNull)
  && date_drawable (get_or d (py "valid_until") JNull).

(** Stand-ins for the library functions, for the worked examples: upper
    case on ASCII letters, a parser that knows one timestamp, a formatter
    that prints it. *)
Definition ascii_upper (s : pystr) : pystr :=
  map (fun c => if ((97 <=? c) && (c <=? 122))%N then (c - 32)%N else c) s.

Definition sample_str_other (v : JSON) : pystr := py "<value>".

Definition sample_fromisoformat (s : pystr) : option pystr :=
  if str_eqb s (py "2024-01-01T00:00:00+00:00") then Some s else None.

Definition sample_strftime (d : pystr) (fmt : pystr) : pystr :=
  py "Jan 01, 2024 00:00 UTC".

(** A table is built from a list, and from nothing else. *)
Definition sample_DataFrame_error (v : JSON) : option Exn :=
  match v with
  | JList _ => None
  | _ => Some ValueError
  end.

(** Fifty-two lines, each holding the item "t". *)
Definition sample_raw_input : pystr := List.concat (repeat [116; 10]%N 52).

Definition sample_results : list JSON :=
  [JDict [(py "valid", JBool true); (py "status", JStr (py "active"))];
   JDict [(py "valid", JBool false); (py "error", JStr (py "expired"))];
   JDict []].

Definition sample_invalid : list (pystr * JSON) :=
  [(py "valid", JBool false); (py "error", JStr (py "Prescription expired"))].

Definition sample_unknown_status : list (pystr * JSON) :=
  [(py "valid", JBool true); (py "status", JStr (py "pending"))].

(** * Properties *)

(** ** Strings *)

Lemma str_eqb_eq (a b : pystr) : str_eqb a b = true <-> a = b.
Proof.
  revert b; induction a as [|x a IH]; intros [|y b]; simpl;
    try (split; (reflexivity || discriminate)).
  rewrite andb_true_iff, N.eqb_eq, IH.
  split; [intros [-> ->]; reflexivity | intros H; inversion H; auto].
Qed.

Lemma str_eqb_refl (a : pystr) : str_eqb a a = true.
Proof. apply str_eqb_eq; reflexivity. Qed.

Lemma lstrip_split (s : pystr) :
  exists pre, s = pre ++ lstrip s /\ blank pre = true.
Proof.
  induction s as [|c s [pre [E B]]]; simpl.
  - exists []; auto.
  - destruct (isspace c) eqn:Hc.
    + exists (c :: pre); simpl. rewrite Hc, B. split; [f_equal; exact E | reflexivity].
    + exists []; auto.
Qed.

Lemma lstrip_head (s : pystr) c t : lstrip s = c :: t -> isspace c = false.
Proof.
  induction s as [|x s IH]; simpl; [discriminate|].
  destruct (isspace x) eqn:Hx; [exact IH|].
  intros H; inversion H; subst; exact Hx.
Qed.

Lemma lstrip_fixed c t : isspace c = false -> lstrip (c :: t) = c :: t.
Proof. intros H; simpl; rewrite H; reflexivity. Qed.

Lemma lstrip_keeps_last (l : pystr) c :
  isspace c = false -> exists u, lstrip (l ++ [c]) = u ++ [c].
Proof.
  intros Hc; induction l as [|x l [u E]]; simpl.
  - rewrite Hc. exists []; reflexivity.
  - destruct (isspace x).
    + exists u; exact E.
    + exists (x :: l); reflexivity.
Qed.

Lemma lstrip_blank (s : pystr) : lstrip s = [] <-> blank s = true.
Proof.
  induction s as [|c s IH]; simpl; [tauto|].
  destruct (isspace c); simpl; [exact IH|]. split; discriminate.
Qed.

Lemma blank_rev (s : pystr) : blank (rev s) = blank s.
Proof.
  unfold blank. induction s as [|c s IH]; simpl; [reflexivity|].
  rewrite forallb_app, IH; simpl. rewrite andb_true_r. apply andb_comm.
Qed.

Lemma blank_app (a b : pystr) : blank (a ++ b) = blank a && blank b.
Proof. apply forallb_app. Qed.

Lemma rstrip_split (s : pystr) :
  exists post, s = rstrip s ++ post /\ blank post = true.
Proof.
  unfold rstrip. destruct (lstrip_split (rev s)) as [pre [E B]].
  exists (rev pre). split.
  - rewrite <- rev_app_distr, <- E, rev_involutive; reflexivity.
  - rewrite blank_rev; exact B.
Qed.

Lemma rstrip_last (s : pystr) c t d :
  rstrip s = c :: t -> isspace (last (c :: t) d) = false.
Proof.
  unfold rstrip; intros H.
  destruct (lstrip (rev s)) as [|x u] eqn:E; [discriminate|].
  simpl in H.
  assert (L : last (rev u ++ [x]) d = x) by apply last_last.
  rewrite <- H, L. eapply lstrip_head; exact E.
Qed.

(** Trimming the right end of a string that starts with a non-space keeps
    its first character. *)
Lemma rstrip_keeps_head c t :
  isspace c = false -> exists u, rstrip (c :: t) = c :: u.
Proof.
  intros Hc. unfold rstrip; simpl.
  destruct (lstrip_keeps_last (rev t) c Hc) as [u E].
  rewrite E, rev_app_distr; simpl. exists (rev u); reflexivity.
Qed.

Lemma strip_trimmed (s : pystr) : trimmed (strip s).
Proof.
  unfold strip.
  destruct (lstrip s) as [|c t] eqn:E; [exact I|].
  pose proof (lstrip_head s c t E) as Hc.
  destruct (rstrip_keeps_head c t Hc) as [u Hu].
  rewrite Hu; simpl; split; [exact Hc|].
  exact (rstrip_last (c :: t) c u c Hu).
Qed.

(** [strip] removes a whitespace prefix and a whitespace suffix, nothing
    else. *)
Lemma strip_split (s : pystr) :
  exists pre post,
    s = pre ++ strip s ++ post /\ blank pre = true /\ blank post = true.
Proof.
  destruct (lstrip_split s) as [pre [E B]].
  destruct (rstrip_split (lstrip s)) as [post [E' B']].
  exists pre, post. unfold strip. rewrite <- E', <- E. auto.
Qed.

Lemma strip_blank (s : pystr) : str_truthy (strip s) = negb (blank s).
Proof.
  destruct (strip_split s) as [pre [post [E [B1 B2]]]].
  destruct (strip s) as [|c t] eqn:Es; simpl.
  - rewrite E; simpl. rewrite blank_app, B1, B2; reflexivity.
  - pose proof (strip_trimmed s) as T. rewrite Es in T; destruct T as [Hc _].
    rewrite E, blank_app; simpl. rewrite Hc, andb_false_r; reflexivity.
Qed.

Lemma strip_fixed (s : pystr) : trimmed s -> strip s = s.
Proof.
  destruct s as [|c t]; [reflexivity|]. intros [Hc Hl].
  unfold strip. rewrite (lstrip_fixed c t Hc).
  unfold rstrip.
  assert (exists u x, rev (c :: t) = x :: u /\ isspace x = false) as [u [x [E Hx]]].
  { destruct (rev (c :: t)) as [|x u] eqn:E.
    - apply (f_equal (@List.length N)) in E. rewrite length_rev in E; discriminate.
    - exists u, x; split; [reflexivity|].
      assert (R : c :: t = rev u ++ [x])
        by (rewrite <- (rev_involutive (c :: t)), E; reflexivity).
      rewrite R, last_last in Hl. exact Hl. }
  rewrite E, (lstrip_fixed x u Hx), <- E, rev_involutive; reflexivity.
Qed.

Lemma strip_idempotent (s : pystr) : strip (strip s) = strip s.
Proof. apply strip_fixed, strip_trimmed. Qed.

(** A trailing "Z" becomes "+00:00". *)
Lemma replace_char_app old new (a b : pystr) :
  replace_char old new (a ++ b) = replace_char old new a ++ replace_char old new b.
Proof. unfold replace_char; apply flat_map_app. Qed.

(** ** The batch input (line 162) *)

Lemma batch_items_unfold (raw : pystr) :
  batch_items raw = trimmed_nonblank (splitlines raw).
Proof. reflexivity. Qed.

Lemma trimmed_nonblank_cons (l : pystr) (ls : list pystr) :
  trimmed_nonblank (l :: ls) =
  if blank l then trimmed_nonblank ls else strip l :: trimmed_nonblank ls.
Proof.
  unfold trimmed_nonblank; simpl. rewrite strip_blank.
  destruct (blank l); reflexivity.
Qed.

Lemma trimmed_nonblank_each (ls : list pystr) :
  Forall (fun x => x <> [] /\ trimmed x) (trimmed_nonblank ls).
Proof.
  induction ls as [|l ls IH]; [constructor|].
  rewrite trimmed_nonblank_cons.
  destruct (blank l) eqn:B; [exact IH|].
  constructor; [|exact IH]. split; [|apply strip_trimmed].
  intros E. pose proof (strip_blank l) as H. rewrite E, B in H. discriminate.
Qed.

Lemma trimmed_nonblank_subseq (ls : list pystr) :
  Subseq (trimmed_nonblank ls) (map strip ls).
Proof.
  induction ls as [|l ls IH]; [constructor|].
  rewrite trimmed_nonblank_cons; simpl.
  destruct (blank l); constructor; exact IH.
Qed.

Lemma trimmed_nonblank_count (ls : list pystr) (x : pystr) :
  count_occ pystr_eq_dec (trimmed_nonblank ls) x =
  if str_truthy x then count_occ pystr_eq_dec (map strip ls) x else 0.
Proof.
  induction ls as [|l ls IH].
  - simpl; destruct (str_truthy x); reflexivity.
  - rewrite trimmed_nonblank_cons.
    pose proof (strip_blank l) as H.
    destruct (blank l) eqn:B; simpl in *.
    + rewrite IH. destruct (pystr_eq_dec (strip l) x) as [E|_]; [|reflexivity].
      rewrite <- E, H; reflexivity.
    + rewrite IH. destruct (pystr_eq_dec (strip l) x) as [E|_]; [|reflexivity].
      rewrite <- E, H; reflexivity.
Qed.

Lemma trimmed_nonblank_length (ls : list pystr) :
  List.length (trimmed_nonblank ls) + List.length (filter blank ls)
  = List.length ls.
Proof.
  induction ls as [|l ls IH]; [reflexivity|].
  rewrite trimmed_nonblank_cons; simpl.
  destruct (blank l); simpl; lia.
Qed.

(** Blank lines anywhere in the input leave the items unchanged. *)
Lemma trimmed_nonblank_skips_blank (a b : list pystr) (l : pystr) :
  blank l = true -> trimmed_nonblank (a ++ l :: b) = trimmed_nonblank (a ++ b).
Proof.
  intros B. induction a as [|x a IH]; simpl.
  - rewrite trimmed_nonblank_cons, B; reflexivity.
  - rewrite !trimmed_nonblank_cons, IH; reflexivity.
Qed.

(** C6: the items of a batch input are its lines, each trimmed, without the
    blank ones, in the order entered; an entry occurs among the items as
    often as among the trimmed lines (nothing is deduplicated), and a blank
    line adds nothing to the number of items, which is what the cap of 50
    is compared with. *)
Theorem batch_items_normalised (raw : pystr) :
  let lines := splitlines raw in
  let items := batch_items raw in
  items = map strip (filter (fun l => negb (blank l)) lines)
  /\ Forall (fun x => x <> [] /\ trimmed x) items
  /\ Subseq items (map strip lines)
  /\ (forall x, count_occ pystr_eq_dec items x =
                if str_truthy x
                then count_occ pystr_eq_dec (map strip lines) x else 0)
  /\ List.length items + List.length (filter blank lines) = List.length lines.
Proof.
  intros lines items. unfold items. rewrite batch_items_unfold. fold lines.
  split; [|split; [|split; [|split]]].
  - unfold trimmed_nonblank. f_equal. apply filter_ext. intros l. apply strip_blank.
  - apply trimmed_nonblank_each.
  - apply trimmed_nonblank_subseq.
  - apply trimmed_nonblank_count.
  - apply trimmed_nonblank_length.
Qed.

(** ** The verification call *)

Lemma log_ui_nil (w : World) : log_ui [] w = w.
Proof. destruct w; unfold log_ui; simpl. rewrite app_nil_r; reflexivity. Qed.

Lemma log_ui_app (a b : list UiEvent) (w : World) :
  log_ui b (log_ui a w) = log_ui (a ++ b) w.
Proof. unfold log_ui; simpl. rewrite app_assoc; reflexivity. Qed.

Lemma bind_returned {A B} (m : M A) (f : A -> M B) w a w' :
  m w = (Returned a, w') -> bind m f w = f a w'.
Proof. unfold bind; intros ->; reflexivity. Qed.

Lemma bind_stopped {A B} (m : M A) (f : A -> M B) w w' :
  m w = (Stopped, w') -> bind m f w = (Stopped, w').
Proof. unfold bind; intros ->; reflexivity. Qed.

Lemma bind_raised {A B} (m : M A) (f : A -> M B) w e w' :
  m w = (Raised e, w') -> bind m f w = (Raised e, w').
Proof. unfold bind; intros ->; reflexivity. Qed.

Lemma get_api_key_run (w : World) :
  get_api_key w = (Returned (secret_api_key w), w).
Proof.
  unfold get_api_key, try_except, bind, st_secrets_api_key, ret.
  destruct (secret_api_key w); reflexivity.
Qed.

Lemma resp_json_run (r : Response) (w : World) :
  resp_json r w = (decoded r, w).
Proof. unfold resp_json, decoded. destruct (json r); reflexivity. Qed.

(** With a key, [call_api] posts once and then branches on the status. *)
Lemma call_api_with_key (payload : JSON) (w : World) (k : pystr) (r : Response) :
  secret_api_key w = Some k -> k <> [] ->
  remote w (post_request k payload) = Responds r ->
  let s := status_code r in
  let w1 := log_http (post_request k payload) w in
  call_api payload w =
    if (s =? 401)%Z then (Stopped, log_ui [StError (shown Unauthorized)] w1)
    else if (s =? 403)%Z then (Stopped, log_ui [StError (shown Forbidden)] w1)
    else if (s =? 400)%Z
      then (Stopped, log_ui [StError (shown (BadRequest (text r)))] w1)
    else if (s =? 405)%Z
      then (Stopped, log_ui [StError (shown MethodNotAllowed)] w1)
    else if negb (ok r)
      then (Stopped, log_ui [StError (shown (ServiceError s (text r)))] w1)
    else (decoded r, w1).
Proof.
  intros Hk Hne Hr s w1. unfold call_api.
  rewrite (bind_returned _ _ w _ w (get_api_key_run w)), Hk.
  destruct k as [|c k]; [contradiction|]. simpl negb. cbv iota.
  rewrite (bind_returned _ _ w tt w eq_refl).
  assert (P : requests_post API_URL
                [(py "Content-Type", py "application/json");
                 (py "x-api-key", key_value (Some (c :: k)))] payload 30 w
              = (Returned r, w1)).
  { unfold requests_post. simpl key_value.
    change {| url := API_URL;
              headers := [(py "Content-Type", py "application/json");
                          (py "x-api-key", c :: k)];
              body := payload; timeout := 30 |}
      with (post_request (c :: k) payload).
    rewrite Hr. reflexivity. }
  rewrite (bind_returned _ _ w r w1 P). fold s.
  destruct (s =? 401)%Z; [reflexivity|].
  destruct (s =? 403)%Z; [reflexivity|].
  destruct (s =? 400)%Z; [reflexivity|].
  destruct (s =? 405)%Z; [reflexivity|].
  destruct (negb (ok r)); [reflexivity|].
  rewrite (bind_returned _ _ w1 tt w1 eq_refl). apply resp_json_run.
Qed.

(** C1 (amended): with a key in place, the response decides the outcome by
    its status: 200-299 gives the decoded body as it is; 401, 403, 400 and
    405 stop the run with their own message, the one for 400 carrying the
    raw body; every other status from 400 to 599 stops it with a message
    carrying the status and the raw body; the statuses left, those below
    400 or above 599, go the way of 200-299. *)
Theorem call_api_classifies (payload : JSON) (w : World) (k : pystr)
    (r : Response) :
  secret_api_key w = Some k -> k <> [] ->
  remote w (post_request k payload) = Responds r ->
  let s := status_code r in
  let w1 := log_http (post_request k payload) w in
  let fails e :=
    call_api payload w = (Stopped, log_ui [StError (shown e)] w1) in
  let passes := call_api payload w = (decoded r, w1) in
  ((200 <= s <= 299)%Z -> passes)
  /\ (s = 401%Z -> fails Unauthorized)
  /\ (s = 403%Z -> fails Forbidden)
  /\ (s = 400%Z -> fails (BadRequest (text r)))
  /\ (s = 405%Z -> fails MethodNotAllowed)
  /\ ((400 <= s < 600)%Z -> s <> 401%Z -> s <> 403%Z -> s <> 400%Z ->
      s <> 405%Z -> fails (ServiceError s (text r)))
  /\ ((s < 400)%Z \/ (600 <= s)%Z -> passes).
Proof.
  intros Hk Hne Hr s w1 fails passes. unfold fails, passes.
  pose proof (call_api_with_key payload w k r Hk Hne Hr) as E.
  cbv zeta in E. fold s w1 in E. rewrite E. unfold ok. fold s.
  repeat split; intros;
    repeat match goal with
    | |- context [(?a =? ?b)%Z] => destruct (Z.eqb_spec a b); try lia
    | |- context [(?a <=? ?b)%Z] => destruct (Z.leb_spec a b); try lia
    | |- context [(?a <? ?b)%Z] => destruct (Z.ltb_spec a b); try lia
    end; simpl; try reflexivity; try lia.
Qed.

(** C2: without a usable key ([None] or the empty string) [call_api] shows
    the missing-key message and stops; the trace of HTTP requests is the
    one it started with. *)
Theorem call_api_missing_credential (payload : JSON) (w : World) :
  secret_api_key w = None \/ secret_api_key w = Some [] ->
  call_api payload w = (Stopped, log_ui [StError (shown MissingCredential)] w)
  /\ http_log (snd (call_api payload w)) = http_log w.
Proof.
  intros H.
  assert (E : call_api payload w
              = (Stopped, log_ui [StError (shown MissingCredential)] w)).
  { unfold call_api.
    rewrite (bind_returned _ _ w _ w (get_api_key_run w)).
    destruct H as [-> | ->]; reflexivity. }
  rewrite E; split; reflexivity.
Qed.

Lemma call_api_classifies_witness :
  let r := {| status_code := 403; text := py "forbidden"; json := None |} in
  let w := fresh_world (Some (py "secret")) (Responds r) in
  call_api token_payload w
  = (Stopped,
     log_ui [StError (shown Forbidden)]
       (log_http (post_request (py "secret") token_payload) w)).
Proof.
  intros r w.
  refine (proj1 (proj2 (proj2
    (call_api_classifies token_payload w (py "secret") r eq_refl _ eq_refl)))
    eq_refl).
  discriminate.
Defined.

(** C1 as stated fails at status 304: it is neither 2xx nor one of the four
    named codes, yet no service error is shown and the decoded body is
    returned.  It fails too at status 200 with a body that is not JSON: the
    run ends with the decoder's exception, not with a payload. *)
Lemma call_api_not_as_tabulated :
  let r := {| status_code := 304; text := py "Not Modified";
              json := Some (JDict []) |} in
  let w := fresh_world (Some (py "secret")) (Responds r) in
  let r' := {| status_code := 200; text := py "<html>"; json := None |} in
  let w' := fresh_world (Some (py "secret")) (Responds r') in
  ~ (200 <= status_code r <= 299)%Z
  /\ ~ In (status_code r) [401; 403; 400; 405]%Z
  /\ call_api token_payload w
     <> (Stopped,
         log_ui [StError (shown (ServiceError (status_code r) (text r)))]
           (log_http (post_request (py "secret") token_payload) w))
  /\ fst (call_api token_payload w) = Returned (JDict [])
  /\ ui (snd (call_api token_payload w)) = []
  /\ fst (call_api token_payload w') = Raised JSONDecodeError.
Proof.
  intros r w r' w'. split; [simpl; lia|]. split.
  - simpl. intros [H|[H|[H|[H|[]]]]]; discriminate.
  - split; [|repeat split; reflexivity].
    intros H. apply (f_equal fst) in H. vm_compute in H. discriminate.
Qed.

Lemma call_api_missing_credential_witness :
  let w := fresh_world (Some []) Fails in
  call_api token_payload w
  = (Stopped, log_ui [StError (shown MissingCredential)] w)
  /\ http_log (snd (call_api token_payload w)) = [].
Proof.
  intros w. apply (call_api_missing_credential token_payload w).
  right; reflexivity.
Defined.

(** ** The batch answer (line 178) *)

(** C3 (amended): for a JSON object, a [results] key decides alone: when it
    is there the result is its value, so the array itself when the value is
    an array; when it is not there the result is the one-element list
    holding the whole object.  In particular the object with
    ["results": [A, B]] gives [[A, B]], and an object [A] without the key
    gives [[A]]. *)
Theorem results_list_by_key (d : list (pystr * JSON)) (w : World) :
  (forall v, lookup (py "results") d = Some v ->
             results_list (JDict d) w = (Returned v, w))
  /\ (forall l, lookup (py "results") d = Some (JList l) ->
                results_list (JDict d) w = (Returned (JList l), w))
  /\ (lookup (py "results") d = None ->
      results_list (JDict d) w = (Returned (JList [JDict d]), w))
  /\ (forall A B rest,
        results_list (JDict ((py "results", JList [A; B]) :: rest)) w
        = (Returned (JList [A; B]), w)).
Proof.
  unfold results_list, py_get. repeat split.
  - intros v ->; reflexivity.
  - intros l ->; reflexivity.
  - intros ->; reflexivity.
Qed.

Lemma results_list_by_key_witness :
  let A := JDict [(py "valid", JBool true)] in
  let w := fresh_world None Fails in
  results_list A w = (Returned (JList [A]), w).
Proof.
  intros A w.
  exact (proj1 (proj2 (proj2
    (results_list_by_key [(py "valid", JBool true)] w))) eq_refl).
Defined.

(** C3 as stated fails where the [results] key holds something other than
    an array: the claim asks for the one-element list holding the payload,
    the code hands back the value under the key.  It fails too for a
    payload that is not an object, which has no [get]. *)
Lemma results_list_non_sequence :
  let p := JDict [(py "results", JNull); (py "valid", JBool false)] in
  let w := fresh_world None Fails in
  lookup (py "results") [(py "results", JNull); (py "valid", JBool false)]
    = Some JNull
  /\ is_sequence JNull = false
  /\ results_list p w = (Returned JNull, w)
  /\ results_list p w <> (Returned (JList [p]), w)
  /\ results_list (JList []) w = (Raised AttributeError, w)
  /\ results_list (JList []) w <> (Returned (JList [JList []]), w).
Proof.
  intros p w. repeat split; try reflexivity;
    intros H; apply (f_equal fst) in H; discriminate.
Qed.

(** ** The request body (lines 139 and 171-173) *)

Lemma forallb_is_string_map (items : list pystr) :
  forallb is_string (map JStr items) = true.
Proof. induction items; simpl; auto. Qed.

(** C4: every body the script builds is an object with a single entry.  On
    the single tab the key is [token] for the input type "Token" and [url]
    otherwise, and the value is the trimmed text, a string; on the batch tab
    the key is [tokens] for "Tokens" and [urls] otherwise, and the value is
    the array of the items, each a string.  So a body holds exactly one of
    the four request keys. *)
Theorem payload_has_one_key :
  (forall input_type value : pystr,
     let p := single_payload input_type value in
     exists k v,
       p = JDict [(k, v)]
       /\ k = (if str_eqb input_type (py "Token") then py "token" else py "url")
       /\ v = JStr (strip value) /\ is_string v = true
       /\ count_request_keys p = 1)
  /\ (forall (batch_type : pystr) (items : list pystr),
     let p := batch_payload batch_type items in
     exists k v,
       p = JDict [(k, v)]
       /\ k = (if str_eqb batch_type (py "Tokens") then py "tokens" else py "urls")
       /\ v = JList (map JStr items) /\ is_string_array v = true
       /\ count_request_keys p = 1)
  /\ single_payload (py "Token") (py "abc-123") = JDict [(py "token", JStr (py "abc-123"))]
  /\ single_payload (py "URL") (py "u") = JDict [(py "url", JStr (py "u"))]
  /\ batch_payload (py "Tokens") [py "a"; py "b"]
     = JDict [(py "tokens", JList [JStr (py "a"); JStr (py "b")])]
  /\ batch_payload (py "URLs") [py "a"; py "b"]
     = JDict [(py "urls", JList [JStr (py "a"); JStr (py "b")])].
Proof.
  split; [|split; [|repeat split]].
  - intros input_type value p. unfold p, single_payload.
    destruct (str_eqb input_type (py "Token"));
      do 2 eexists; repeat split; reflexivity.
  - intros batch_type items p. unfold p, batch_payload.
    destruct (str_eqb batch_type (py "Tokens"));
      do 2 eexists; (split; [reflexivity|]); (split; [reflexivity|]);
      (split; [reflexivity|]); (split; [apply forallb_is_string_map | reflexivity]).
Qed.

(** ** What a run adds to the traces *)

Section Traces.

Variable P : UiEvent -> Prop.

Lemma extends_refl (w : World) : extends P 0 w w.
Proof.
  split; exists []; rewrite app_nil_r; auto.
Qed.

Lemma extends_trans n m (w1 w2 w3 : World) :
  extends P n w1 w2 -> extends P m w2 w3 -> extends P (n + m) w1 w3.
Proof.
  intros [[e1 [U1 F1]] [r1 [H1 L1]]] [[e2 [U2 F2]] [r2 [H2 L2]]].
  split.
  - exists (e1 ++ e2). rewrite U2, U1, app_assoc. split; [reflexivity|].
    apply Forall_app; auto.
  - exists (r1 ++ r2). rewrite H2, H1, app_assoc, length_app.
    split; [reflexivity | lia].
Qed.

Lemma extends_weaken n m (w w' : World) :
  n <= m -> extends P n w w' -> extends P m w w'.
Proof.
  intros Hnm [HU [r [H L]]]. split; [exact HU|].
  exists r; split; [exact H | lia].
Qed.

Lemma runs_ret {A} (a : A) : runs P 0 (ret a).
Proof. intros w; apply extends_refl. Qed.

Lemma runs_raise {A} (e : Exn) : runs P 0 (@raise A e).
Proof. intros w; apply extends_refl. Qed.

Lemma runs_stop {A} : runs P 0 (@st_stop A).
Proof. intros w; apply extends_refl. Qed.

Lemma runs_emit (e : UiEvent) : P e -> runs P 0 (emit e).
Proof.
  intros He w; simpl. split.
  - exists [e]; split; [reflexivity | constructor; auto].
  - exists []; rewrite app_nil_r; auto.
Qed.

Lemma runs_st_metric (label : pystr) (value : JSON) :
  P (StMetric label value) -> runs P 0 (st_metric label value).
Proof.
  intros H. unfold st_metric.
  destruct value; (apply runs_raise || (apply runs_emit; exact H)).
Qed.

Lemma runs_bind n m {A B} (c : M A) (f : A -> M B) :
  runs P n c -> (forall a, runs P m (f a)) -> runs P (n + m) (bind c f).
Proof.
  intros Hc Hf w. specialize (Hc w). unfold bind.
  destruct (c w) as [[a| |e] w']; simpl in *.
  - eapply extends_trans; [exact Hc | apply Hf].
  - eapply extends_weaken; [|exact Hc]; lia.
  - eapply extends_weaken; [|exact Hc]; lia.
Qed.

Lemma runs_bind0 n {A B} (c : M A) (f : A -> M B) :
  runs P 0 c -> (forall a, runs P n (f a)) -> runs P n (bind c f).
Proof. intros Hc Hf. exact (runs_bind 0 n c f Hc Hf). Qed.

Lemma runs_weaken n m {A} (c : M A) : n <= m -> runs P n c -> runs P m c.
Proof. intros H Hc w. eapply extends_weaken; [exact H | apply Hc]. Qed.

Lemma runs_try {A} (c h : M A) :
  runs P 0 c -> runs P 0 h -> runs P 0 (try_except c h).
Proof.
  intros Hc Hh w. specialize (Hc w). unfold try_except.
  destruct (c w) as [[a| |e] w']; simpl in *; auto.
  exact (extends_trans 0 0 w w' _ Hc (Hh w')).
Qed.

Lemma runs_py_get obj k dflt : runs P 0 (py_get obj k dflt).
Proof.
  unfold py_get. destruct obj; try apply runs_raise.
  destruct (lookup k d); apply runs_ret.
Qed.

Lemma runs_py_getitem obj k : runs P 0 (py_getitem obj k).
Proof.
  unfold py_getitem. destruct obj; try apply runs_raise.
  destruct (lookup k d); [apply runs_ret | apply runs_raise].
Qed.

Lemma runs_py_len obj : runs P 0 (py_len obj).
Proof. unfold py_len. destruct obj; (apply runs_raise || apply runs_ret). Qed.

Lemma runs_py_iter obj : runs P 0 (py_iter obj).
Proof. unfold py_iter. destruct obj; (apply runs_raise || apply runs_ret). Qed.

Lemma runs_post u hs payload t : runs P 1 (requests_post u hs payload t).
Proof.
  intros w. unfold requests_post.
  set (rq := {| url := u; headers := hs; body := payload; timeout := t |}).
  assert (E : extends P 1 w (log_http rq w)).
  { split; [exists []; rewrite app_nil_r; auto|].
    exists [rq]; split; [reflexivity | simpl; lia]. }
  destruct (remote w rq); exact E.
Qed.

Lemma runs_set_last_single_raw v : runs P 0 (set_last_single_raw v).
Proof. intros w; split; exists []; simpl; rewrite app_nil_r; auto. Qed.

Lemma runs_set_last_batch_raw v : runs P 0 (set_last_batch_raw v).
Proof. intros w; split; exists []; simpl; rewrite app_nil_r; auto. Qed.

End Traces.

Ltac runs_step :=
  first
    [ apply runs_ret | apply runs_raise | apply runs_stop
    | apply runs_py_get | apply runs_py_getitem
    | apply runs_py_len | apply runs_py_iter
    | apply runs_set_last_single_raw | apply runs_set_last_batch_raw
    | apply runs_emit; exact I
    | apply runs_st_metric; exact I
    | apply runs_try
    | apply runs_bind0; [| intros ?]
    | match goal with
      | |- runs _ _ (if ?b then _ else _) => destruct b
      | |- runs _ _ (match ?x with _ => _ end) => destruct x
      end ].

Ltac runs_auto := repeat runs_step.

Section Rendering.

Variable upper : pystr -> pystr.
Variable str_other : JSON -> pystr.
Variable datetime : Type.
Variable fromisoformat : pystr -> option datetime.
Variable strftime : datetime -> pystr -> pystr.
Variable DataFrame_error : JSON -> option Exn.

Local Abbreviation fmt_date' := (fmt_date datetime fromisoformat strftime).
Local Abbreviation render_single_result' :=
  (render_single_result upper str_other datetime fromisoformat strftime
     DataFrame_error).
Local Abbreviation render_each' :=
  (render_each upper str_other datetime fromisoformat strftime
     DataFrame_error).
Local Abbreviation render_batch_results' :=
  (render_batch_results upper str_other datetime fromisoformat strftime
     DataFrame_error).
Local Abbreviation tab_batch' :=
  (tab_batch upper str_other datetime fromisoformat strftime
     DataFrame_error).
Local Abbreviation tab_single' :=
  (tab_single upper str_other datetime fromisoformat strftime
     DataFrame_error).

Lemma runs_fmt_date iso : runs not_warning 0 (fmt_date' iso).
Proof.
  unfold fmt_date, py_replace_Z, datetime_fromisoformat. runs_auto.
Qed.

Lemma runs_status_badge status : runs not_warning 0 (status_badge upper status).
Proof. unfold status_badge, colors_get, py_upper. runs_auto. Qed.

Lemma runs_pd_DataFrame meds :
  runs not_warning 0 (pd_DataFrame DataFrame_error meds).
Proof. unfold pd_DataFrame. runs_auto. Qed.

Lemma runs_render_single_result data :
  runs not_warning 0 (render_single_result' data).
Proof.
  unfold render_single_result.
  repeat first [ apply runs_fmt_date | apply runs_status_badge
               | apply runs_pd_DataFrame | runs_step ].
Qed.

Lemma runs_count_valid rs : runs not_warning 0 (count_valid rs).
Proof. induction rs as [|r rs IH]; simpl; [runs_auto|].
  repeat first [ apply IH | runs_step ]. Qed.

Lemma runs_batch_summary results : runs not_warning 0 (batch_summary results).
Proof.
  unfold batch_summary. repeat first [ apply runs_count_valid | runs_step ].
Qed.

Lemma runs_render_each total i rs :
  runs not_warning 0 (render_each' total i rs).
Proof.
  revert i; induction rs as [|r rs IH]; intros i; simpl; [runs_auto|].
  repeat first [ apply IH | apply runs_render_single_result | runs_step ].
Qed.

Lemma runs_render_batch_results results :
  runs not_warning 0 (render_batch_results' results).
Proof.
  unfold render_batch_results.
  apply runs_bind0; [apply runs_batch_summary|]. intros [[t v] i].
  repeat first [ apply runs_render_each | runs_step ].
Qed.

Lemma runs_results_list result : runs not_warning 0 (results_list result).
Proof. unfold results_list. runs_auto. Qed.

Lemma runs_get_api_key : runs not_warning 0 get_api_key.
Proof.
  intros w. rewrite get_api_key_run. apply extends_refl.
Qed.

Lemma runs_call_api payload : runs not_warning 1 (call_api payload).
Proof.
  unfold call_api.
  apply runs_bind0; [apply runs_get_api_key | intros key].
  apply runs_bind0; [runs_auto | intros _].
  apply (runs_bind not_warning 1 0); [apply runs_post | intros resp].
  unfold resp_json. runs_auto.
Qed.

(** What follows a step in a [bind] extends the world the step left. *)
Lemma bind_extends P n {A B} (c : M A) (f : A -> M B) (w : World) :
  (forall a, runs P n (f a)) -> extends P n (snd (c w)) (snd (bind c f w)).
Proof.
  intros Hf. unfold bind. destruct (c w) as [[a| |e] w1]; simpl.
  - apply Hf.
  - eapply extends_weaken; [|apply extends_refl]; lia.
  - eapply extends_weaken; [|apply extends_refl]; lia.
Qed.

Lemma extends_same_http P (w w' : World) :
  extends P 0 w w' -> http_log w' = http_log w.
Proof.
  intros [_ [rqs [H L]]]. destruct rqs; [|simpl in L; lia].
  rewrite H, app_nil_r; reflexivity.
Qed.

(** With a key, [call_api] issues its request whatever the service does. *)
Lemma call_api_posts_once (payload : JSON) (w : World) (k : pystr) :
  secret_api_key w = Some k -> k <> [] ->
  http_log (snd (call_api payload w))
  = http_log w ++ [post_request k payload].
Proof.
  intros Hk Hne.
  destruct (remote w (post_request k payload)) as [r|] eqn:Hr.
  - rewrite (call_api_with_key payload w k r Hk Hne Hr).
    repeat match goal with
           | |- context [if ?b then _ else _] => destruct b
           end; reflexivity.
  - unfold call_api.
    rewrite (bind_returned _ _ w _ w (get_api_key_run w)), Hk.
    destruct k as [|c k]; [contradiction|]. simpl negb. cbv iota.
    rewrite (bind_returned _ _ w tt w eq_refl).
    rewrite (bind_raised _ _ w RequestException
               (log_http (post_request (c :: k) payload) w)); [reflexivity|].
    unfold requests_post. simpl key_value.
    change {| url := API_URL;
              headers := [(py "Content-Type", py "application/json");
                          (py "x-api-key", c :: k)];
              body := payload; timeout := 30 |}
      with (post_request (c :: k) payload).
    rewrite Hr. reflexivity.
Qed.

Lemma cap_items_run (items : list pystr) (w : World) :
  cap_items items w =
    (Returned (firstn 50 items),
     if (50 <? List.length items)%nat
     then log_ui [StWarning cap_warning] w else w).
Proof.
  unfold cap_items.
  destruct (Nat.ltb_spec 50 (List.length items)) as [H|H].
  - reflexivity.
  - rewrite firstn_all2 by exact H. reflexivity.
Qed.

(** C5: on a click with a key in place, the request that leaves carries the
    first 50 items.  With more than 50 items that is a list of exactly 50, a
    prefix of the items, and the warning is drawn while the run goes on to
    post; with 50 or fewer it is the items themselves and no warning is
    added to the trace. *)
Theorem batch_cap_truncates (batch_type raw : pystr) (w : World) (k : pystr) :
  secret_api_key w = Some k -> k <> [] -> batch_items raw <> [] ->
  let items := batch_items raw in
  let sent := firstn 50 items in
  let w' := snd (tab_batch' batch_type raw true w) in
  http_log w' = http_log w ++ [post_request k (batch_payload batch_type sent)]
  /\ (50 < List.length items ->
      List.length sent = 50
      /\ (exists rest, items = sent ++ rest)
      /\ cap_items items w = (Returned sent, log_ui [StWarning cap_warning] w)
      /\ In (StWarning cap_warning) (ui w'))
  /\ (List.length items <= 50 ->
      sent = items
      /\ cap_items items w = (Returned items, w)
      /\ forall msg, In (StWarning msg) (ui w') -> In (StWarning msg) (ui w)).
Proof.
  intros Hk Hne Hitems items sent w'.
  set (caption := StCaption (str_of_int (Z.of_nat (List.length items)) ++
                             py " item(s) entered " ++ em_dash ++
                             py " max 50 allowed per request.")).
  set (w1 := log_ui [caption] w).
  set (w2 := if (50 <? List.length items)%nat
             then log_ui [StWarning cap_warning] w1 else w1).
  set (spinner := StSpinner (py "Verifying " ++
                             str_of_int (Z.of_nat (List.length sent)) ++
                             py " prescription(s)" ++ ellipsis)).
  set (w3 := log_ui [spinner] w2).
  set (payload := batch_payload batch_type sent).
  set (rest := fun result : JSON =>
                 set_last_batch_raw result ;;
                 rl <- results_list result ;;
                 render_batch_results' rl).
  assert (Hrun : tab_batch' batch_type raw true w
                 = bind (call_api payload) rest w3).
  { assert (Hnb : match items with [] => false | _ :: _ => true end = true)
      by (unfold items; destruct (batch_items raw); [contradiction | reflexivity]).
    unfold tab_batch. fold items. rewrite Hnb. simpl andb. cbv iota.
    rewrite (bind_returned (emit caption) _ w tt w1 eq_refl).
    rewrite (bind_returned _ _ w1 sent w2 (cap_items_run items w1)).
    rewrite (bind_returned (emit spinner) _ w2 tt w3 eq_refl).
    reflexivity. }
  assert (Hrest : forall a, runs not_warning 0 (rest a)).
  { intros a. unfold rest.
    repeat first [ apply runs_results_list | apply runs_render_batch_results
                 | runs_step ]. }
  pose proof (bind_extends not_warning 0 (call_api payload) rest w3 Hrest) as Hx.
  rewrite <- Hrun in Hx. fold w' in Hx.
  assert (Hk3 : secret_api_key w3 = Some k).
  { unfold w3, w2, w1. destruct (50 <? List.length items)%nat; exact Hk. }
  assert (Hh3 : http_log w3 = http_log w).
  { unfold w3, w2, w1. destruct (50 <? List.length items)%nat; reflexivity. }
  pose proof (runs_call_api payload w3) as [[evs [Hevs Fevs]] _].
  destruct Hx as [[evs' [Hevs' Fevs']] Hhttp].
  split; [|split].
  - rewrite (extends_same_http not_warning _ _ (conj (ex_intro _ evs' (conj Hevs' Fevs')) Hhttp)).
    rewrite (call_api_posts_once payload w3 k Hk3 Hne), Hh3. reflexivity.
  - intros Hlen. split; [|split; [|split]].
    + unfold sent. rewrite length_firstn. lia.
    + exists (skipn 50 items). unfold sent. symmetry; apply firstn_skipn.
    + rewrite cap_items_run.
      destruct (Nat.ltb_spec 50 (List.length items)); [reflexivity | lia].
    + rewrite Hevs', Hevs. unfold w3, w2.
      destruct (Nat.ltb_spec 50 (List.length items)); [|lia].
      simpl. rewrite !in_app_iff. left; left; left; right. left; reflexivity.
  - intros Hlen.
    assert (Es : sent = items) by (apply firstn_all2; exact Hlen).
    split; [exact Es|]. split.
    + rewrite cap_items_run. fold sent. rewrite Es.
      destruct (Nat.ltb_spec 50 (List.length items)); [lia | reflexivity].
    + intros msg. rewrite Hevs', Hevs. unfold w3, w2.
      destruct (Nat.ltb_spec 50 (List.length items)); [lia|].
      simpl. rewrite !in_app_iff. intros [[[[G|G]|G]|G]|G].
      * exact G.
      * destruct G as [G|[]]; discriminate.
      * destruct G as [G|[]]; discriminate.
      * rewrite Forall_forall in Fevs. destruct (Fevs _ G).
      * rewrite Forall_forall in Fevs'. destruct (Fevs' _ G).
Qed.

(** ** The batch summary (lines 103-105) *)

Lemma count_valid_run (rs : list JSON) (w : World) :
  forallb is_dict rs = true ->
  count_valid rs w
  = (Returned (Z.of_nat (List.length (filter valid_truthy rs))), w).
Proof.
  induction rs as [|r rs IH]; simpl; [reflexivity|].
  rewrite andb_true_iff; intros [Hr Hrs].
  destruct r; try discriminate.
  assert (G : py_get (JDict d) (py "valid") JNull w
              = (Returned (match lookup (py "valid") d with
                           | Some v => v | None => JNull end), w))
    by (unfold py_get; destruct (lookup (py "valid") d); reflexivity).
  rewrite (bind_returned _ _ w _ w G).
  rewrite (bind_returned _ _ w _ w (IH Hrs)).
  unfold ret. f_equal. f_equal.
  cbn [filter valid_truthy].
  destruct (lookup (py "valid") d) as [v|].
  - destruct (truthy v); simpl List.length; lia.
  - simpl truthy. cbv iota. lia.
Qed.

Lemma is_result_is_dict (rs : list JSON) :
  Forall (fun r => is_result r = true) rs -> forallb is_dict rs = true.
Proof.
  induction 1 as [|r rs Hr _ IH]; simpl; [reflexivity|].
  rewrite IH, andb_true_r. destruct r; try discriminate; reflexivity.
Qed.

Lemma is_result_truthy (rs : list JSON) :
  Forall (fun r => is_result r = true) rs ->
  filter valid_truthy rs = filter valid_is_true rs.
Proof.
  induction 1 as [|r rs Hr _ IH]; simpl; [reflexivity|].
  rewrite IH. replace (valid_truthy r) with (valid_is_true r); [reflexivity|].
  destruct r; try discriminate. simpl in *.
  destruct (lookup (py "valid") d) as [[| [|] | | | | |]|];
    try discriminate; reflexivity.
Qed.

Lemma filter_split_length {A} (f : A -> bool) (l : list A) :
  List.length (filter f l) + List.length (filter (fun x => negb (f x)) l)
  = List.length l.
Proof.
  induction l as [|x l IH]; simpl; [reflexivity|].
  destruct (f x); simpl; lia.
Qed.

(** C8: for a list of verification results, [total] is the length of the
    list, [valid_count] the number of its elements with [valid = true], and
    [invalid_count] their difference, which is the number of the others;
    these are the three numbers drawn. *)
Theorem batch_summary_counts (rs : list JSON) (w : World) :
  Forall (fun r => is_result r = true) rs ->
  let total := Z.of_nat (List.length rs) in
  let valid_count := Z.of_nat (List.length (filter valid_is_true rs)) in
  let invalid_count := (total - valid_count)%Z in
  batch_summary (JList rs) w = (Returned (total, valid_count, invalid_count), w)
  /\ invalid_count
     = Z.of_nat (List.length (filter (fun r => negb (valid_is_true r)) rs))
  /\ exists evs,
       ui (snd (render_batch_results' (JList rs) w))
       = ui w ++ [StColumns 3;
                  StMetric (py "Total") (JInt total);
                  StMetric (check_mark ++ py " Valid") (JInt valid_count);
                  StMetric (cross_mark ++ py " Invalid") (JInt invalid_count);
                  StDivider] ++ evs.
Proof.
  intros H total valid_count invalid_count.
  assert (S : batch_summary (JList rs) w
              = (Returned (total, valid_count, invalid_count), w)).
  { unfold batch_summary.
    rewrite (bind_returned (py_len (JList rs)) _ w total w eq_refl).
    rewrite (bind_returned (py_iter (JList rs)) _ w rs w eq_refl).
    rewrite (bind_returned _ _ w _ w (count_valid_run rs w (is_result_is_dict rs H))).
    rewrite (is_result_truthy rs H). reflexivity. }
  split; [exact S|]. split.
  - unfold invalid_count, total, valid_count.
    pose proof (filter_split_length valid_is_true rs). lia.
  - unfold render_batch_results.
    rewrite (bind_returned _ _ w _ w S). cbv beta iota.
    set (e1 := StColumns 3).
    set (e2 := StMetric (py "Total") (JInt total)).
    set (e3 := StMetric (check_mark ++ py " Valid") (JInt valid_count)).
    set (e4 := StMetric (cross_mark ++ py " Invalid") (JInt invalid_count)).
    rewrite (bind_returned (emit e1) _ w tt (log_ui [e1] w) eq_refl).
    rewrite (bind_returned (emit e2) _ _ tt (log_ui [e2] (log_ui [e1] w)) eq_refl).
    rewrite (bind_returned (emit e3) _ _ tt
               (log_ui [e3] (log_ui [e2] (log_ui [e1] w))) eq_refl).
    rewrite (bind_returned (emit e4) _ _ tt
               (log_ui [e4] (log_ui [e3] (log_ui [e2] (log_ui [e1] w)))) eq_refl).
    rewrite (bind_returned (emit StDivider) _ _ tt
               (log_ui [StDivider]
                  (log_ui [e4] (log_ui [e3] (log_ui [e2] (log_ui [e1] w)))))
               eq_refl).
    rewrite (bind_returned (py_iter (JList rs)) _ _ rs _ eq_refl).
    destruct (runs_render_each total 1%Z rs
                (log_ui [StDivider]
                   (log_ui [e4] (log_ui [e3] (log_ui [e2] (log_ui [e1] w))))))
      as [[evs [E _]] _].
    exists evs. rewrite E. simpl. rewrite <- !app_assoc. reflexivity.
Qed.

(** ** The date formatter (lines 57-63) *)

Lemma with_utc_offset_trailing_Z (s : pystr) :
  with_utc_offset (s ++ py "Z") = with_utc_offset s ++ py "+00:00".
Proof.
  unfold with_utc_offset. rewrite replace_char_app. reflexivity.
Qed.

Lemma fmt_date_falsy (iso : JSON) (w : World) :
  truthy iso = false -> fmt_date' iso w = (Returned (JStr em_dash), w).
Proof. intros H. unfold fmt_date. rewrite H. reflexivity. Qed.

Lemma fmt_date_str (s : pystr) (w : World) :
  s <> [] ->
  fmt_date' (JStr s) w
  = (Returned (match fromisoformat (with_utc_offset s) with
               | Some d => JStr (strftime d date_format)
               | None => JStr s
               end), w).
Proof.
  intros Hs. unfold fmt_date.
  destruct s as [|c s]; [contradiction|]. simpl truthy. cbv iota. simpl negb.
  cbv iota.
  unfold try_except, bind, py_replace_Z, datetime_fromisoformat, ret, raise.
  fold (with_utc_offset (c :: s)).
  destruct (fromisoformat (with_utc_offset (c :: s))); reflexivity.
Qed.

Lemma fmt_date_other (iso : JSON) (w : World) :
  truthy iso = true -> is_string iso = false ->
  fmt_date' iso w = (Returned iso, w).
Proof.
  intros Ht Hs. unfold fmt_date. rewrite Ht. simpl negb. cbv iota.
  destruct iso; try discriminate; reflexivity.
Qed.

Lemma fmt_date_returns (iso : JSON) :
  exists v, forall w, fmt_date' iso w = (Returned v, w).
Proof.
  destruct (truthy iso) eqn:Ht.
  - destruct (is_string iso) eqn:Hs.
    + destruct iso; try discriminate.
      assert (Hne : s <> []) by (destruct s; [discriminate | discriminate]).
      eexists; intros w. apply (fmt_date_str s w Hne).
    + exists iso; intros w. apply fmt_date_other; assumption.
  - eexists; intros w. apply fmt_date_falsy; exact Ht.
Qed.

(** C10: [fmt_date] returns for every input and leaves the world as it was.
    It gives the dash for an absent or empty input; for a string, the parser
    is run on the text with "Z" read as "+00:00", and the result is the
    formatted timestamp when it parses and the original string when it does
    not. *)
Theorem fmt_date_total (iso : JSON) (w : World) :
  (exists v, fmt_date' iso w = (Returned v, w))
  /\ (iso = JNull \/ iso = JStr [] ->
      fmt_date' iso w = (Returned (JStr em_dash), w))
  /\ (forall s d, iso = JStr s -> s <> [] ->
        fromisoformat (with_utc_offset s) = Some d ->
        fmt_date' iso w = (Returned (JStr (strftime d date_format)), w))
  /\ (forall s, iso = JStr s -> s <> [] ->
        fromisoformat (with_utc_offset s) = None ->
        fmt_date' iso w = (Returned (JStr s), w))
  /\ (forall s, with_utc_offset (s ++ py "Z")
                = with_utc_offset s ++ py "+00:00").
Proof.
  split; [|split; [|split; [|split]]].
  - destruct (fmt_date_returns iso) as [v Hv]. exists v; apply Hv.
  - intros [-> | ->]; apply fmt_date_falsy; reflexivity.
  - intros s d -> Hs Hp. rewrite (fmt_date_str s w Hs), Hp. reflexivity.
  - intros s -> Hs Hp. rewrite (fmt_date_str s w Hs), Hp. reflexivity.
  - apply with_utc_offset_trailing_Z.
Qed.

(** ** Rendering one result (lines 66-99) *)

Lemma py_get_run (d : list (pystr * JSON)) (k : pystr) (dflt : JSON) (w : World) :
  py_get (JDict d) k dflt w = (Returned (get_or d k dflt), w).
Proof. unfold py_get, get_or. destruct (lookup k d); reflexivity. Qed.

Lemma emit_run (e : UiEvent) (w : World) :
  emit e w = (Returned tt, log_ui [e] w).
Proof. reflexivity. Qed.

Lemma st_metric_run (label : pystr) (v : JSON) (w : World) :
  metric_accepts v = true ->
  st_metric label v w = (Returned tt, log_ui [StMetric label v] w).
Proof. destruct v; try discriminate; reflexivity. Qed.

Lemma st_metric_refuses (label : pystr) (v : JSON) (w : World) :
  metric_accepts v = false ->
  st_metric label v w = (Raised StreamlitAPIException, w).
Proof. destruct v; try discriminate; reflexivity. Qed.

Lemma lookup_colors_unknown (s : pystr) :
  ~ In s known_statuses -> lookup s colors = None.
Proof.
  intros H. unfold colors; cbn [lookup].
  repeat match goal with
         | |- context [str_eqb ?a s] =>
             let E := fresh "E" in
             destruct (str_eqb a s) eqn:E;
             [apply str_eqb_eq in E; exfalso; apply H; rewrite <- E;
              simpl; tauto|]
         end.
  reflexivity.
Qed.

Lemma lookup_colors_known (s : pystr) :
  In s known_statuses ->
  exists c, lookup s colors = Some c
            /\ In c [green_circle; red_circle; yellow_circle].
Proof.
  simpl. intros [<-|[<-|[<-|[<-|[]]]]]; eexists; (split; [reflexivity|]);
    simpl; tauto.
Qed.

Lemma status_badge_str (s : pystr) (w : World) :
  status_badge upper (JStr s) w
  = (Returned (match lookup s colors with
               | Some c => c
               | None => white_circle
               end ++ py " " ++ upper s), w).
Proof.
  unfold status_badge, colors_get, py_upper, bind, ret.
  destruct (lookup s colors); reflexivity.
Qed.

(** One step of a run: the head of a [bind] returns. *)
Ltac run_step :=
  match goal with
  | |- context [bind ?m ?f ?w] =>
      erewrite (bind_returned m f w)
        by first [ apply py_get_run | apply emit_run | apply status_badge_str
                 | apply st_metric_run; first [assumption | reflexivity]
                 | reflexivity ]
  end.

Lemma py_getitem_run (d : list (pystr * JSON)) (k : pystr) (v : JSON) (w : World) :
  lookup k d = Some v -> py_getitem (JDict d) k w = (Returned v, w).
Proof. unfold py_getitem. intros ->; reflexivity. Qed.

Lemma fmt_date_drawable (iso : JSON) :
  exists v, (forall w, fmt_date' iso w = (Returned v, w))
            /\ metric_accepts v = date_drawable iso.
Proof.
  unfold date_drawable. destruct (truthy iso) eqn:Ht.
  - destruct (is_string iso) eqn:Hs.
    + destruct iso; try discriminate.
      assert (Hne : s <> []) by (destruct s; discriminate).
      eexists; split; [intros w; apply (fmt_date_str s w Hne)|].
      destruct (fromisoformat (with_utc_offset s)); reflexivity.
    + exists iso; split; [intros w; apply fmt_date_other; assumption|].
      reflexivity.
  - eexists; split; [intros w; apply fmt_date_falsy; exact Ht|]. reflexivity.
Qed.

(** The medications table: drawn when the entry is truthy and pandas builds
    the table. *)
Lemma medications_run (meds : JSON) (w : World) :
  truthy meds = false \/ DataFrame_error meds = None ->
  (if truthy meds
   then emit (StSubheader (pill ++ py " Medications")) ;;
        pd_DataFrame DataFrame_error meds ;;
        emit (StDataframe meds)
   else ret tt) w
  = (Returned tt,
     log_ui (if truthy meds
             then [StSubheader (pill ++ py " Medications"); StDataframe meds]
             else []) w).
Proof.
  intros H. destruct (truthy meds) eqn:Ht.
  - destruct H as [H|H]; [discriminate|].
    run_step.
    erewrite (bind_returned (pd_DataFrame _ _))
      by (unfold pd_DataFrame; rewrite H; reflexivity).
    rewrite emit_run, log_ui_app. reflexivity.
  - unfold ret. rewrite log_ui_nil. reflexivity.
Qed.

(** The diagnosis line: drawn when the entry is truthy. *)
Lemma diagnosis_run (d : list (pystr * JSON)) (w : World) :
  (if truthy (get_or d (py "diagnosis") JNull)
   then dg <- py_getitem (JDict d) (py "diagnosis") ;;
        emit (StInfo (stethoscope ++ py " **Diagnosis:** " ++
                      format_value str_other dg))
   else ret tt) w
  = (Returned tt,
     log_ui (if truthy (get_or d (py "diagnosis") JNull)
             then [StInfo (stethoscope ++ py " **Diagnosis:** " ++
                           format_value str_other
                             (get_or d (py "diagnosis") JNull))]
             else []) w).
Proof.
  unfold get_or.
  destruct (lookup (py "diagnosis") d) as [dg|] eqn:Ld;
    [destruct (truthy dg)|cbn [truthy]].
  - erewrite (bind_returned (py_getitem _ _))
      by (apply py_getitem_run; exact Ld).
    apply emit_run.
  - unfold ret. rewrite log_ui_nil. reflexivity.
  - unfold ret. rewrite log_ui_nil. reflexivity.
Qed.

(** A result whose [valid] is true, whose status is a string, whose other
    metric entries are values [st.metric] takes and whose medications are
    empty or make a table, is drawn in full: the success banner, the first
    row of metrics with the badge, and further widgets none of which is an
    error box. *)
Lemma render_valid_result (d : list (pystr * JSON)) (s : pystr) (w : World) :
  truthy (get_or d (py "valid") JNull) = true ->
  get_or d (py "status") (JStr em_dash) = JStr s ->
  metrics_drawable d = true ->
  truthy (get_or d (py "medications") (JList [])) = false
  \/ DataFrame_error (get_or d (py "medications") (JList [])) = None ->
  exists after,
    render_single_result' (JDict d) w
    = (Returned tt,
       log_ui ([StSuccess (check_mark ++ py " Valid Prescription");
                StColumns 3;
                StMetric (py "Rx Number")
                  (get_or d (py "prescription_number") (JStr em_dash));
                StMetric (py "Status")
                  (JStr (match lookup s colors with
                         | Some c => c
                         | None => white_circle
                         end ++ py " " ++ upper s))] ++ after) w)
    /\ Forall not_error after.
Proof.
  intros Hv Hs Hm Hmeds.
  unfold metrics_drawable in Hm.
  repeat (apply andb_true_iff in Hm; destruct Hm as [Hm ?]).
  destruct (fmt_date_drawable (get_or d (py "created_at") JNull))
    as [issued [Hi Ai]].
  destruct (fmt_date_drawable (get_or d (py "valid_until") JNull))
    as [until [Hu Au]].
  assert (Ai' : metric_accepts issued = true) by (rewrite Ai; assumption).
  assert (Au' : metric_accepts until = true) by (rewrite Au; assumption).
  unfold render_single_result.
  run_step. rewrite Hv. cbn [negb].
  do 5 run_step. rewrite Hs. do 13 run_step.
  erewrite (bind_returned (fmt_date' _)) by apply Hi.
  do 2 run_step.
  erewrite (bind_returned (fmt_date' _)) by apply Hu.
  do 2 run_step.
  erewrite (bind_returned (if truthy _ then _ else _))
    by apply diagnosis_run.
  run_step.
  rewrite (medications_run _ _ Hmeds), !log_ui_app.
  eexists. split.
  - cbn [app]. reflexivity.
  - repeat constructor;
      destruct (truthy (get_or d (py "diagnosis") JNull));
      destruct (truthy (get_or d (py "medications") (JList [])));
      repeat constructor.
Qed.

(** C7: any status string gets a badge.  [status_badge] returns for every
    string; a string outside the four known ones gets the white circle, a
    known one its coloured circle.  A result of the data model with
    [valid = true] and such an unknown status is drawn as a valid
    prescription, the badge in its Status metric, and no error box is
    drawn.  What is used of the data model is that the entries shown as
    metrics are strings or absent (any value [st.metric] takes will do)
    and that the medications are absent, empty, or a list pandas builds
    its table from. *)
Theorem status_badge_accepts_any (s : pystr) (w : World) :
  (exists c,
     status_badge upper (JStr s) w = (Returned (c ++ py " " ++ upper s), w)
     /\ (~ In s known_statuses -> c = white_circle)
     /\ (In s known_statuses ->
         In c [green_circle; red_circle; yellow_circle]))
  /\ (forall d,
        lookup (py "valid") d = Some (JBool true) ->
        lookup (py "status") d = Some (JStr s) ->
        ~ In s known_statuses ->
        metrics_drawable d = true ->
        truthy (get_or d (py "medications") (JList [])) = false
        \/ DataFrame_error (get_or d (py "medications") (JList [])) = None ->
        exists after,
          render_single_result' (JDict d) w
          = (Returned tt,
             log_ui ([StSuccess (check_mark ++ py " Valid Prescription");
                      StColumns 3;
                      StMetric (py "Rx Number")
                        (get_or d (py "prescription_number") (JStr em_dash));
                      StMetric (py "Status")
                        (JStr (white_circle ++ py " " ++ upper s))]
                     ++ after) w)
          /\ Forall not_error after).
Proof.
  split.
  - exists (match lookup s colors with Some c => c | None => white_circle end).
    split; [apply status_badge_str|]. split.
    + intros H. rewrite (lookup_colors_unknown s H). reflexivity.
    + intros H. destruct (lookup_colors_known s H) as [c [-> Hc]]. exact Hc.
  - intros d Hv Hs Hu Hm Hmeds.
    assert (Hv' : truthy (get_or d (py "valid") JNull) = true)
      by (unfold get_or; rewrite Hv; reflexivity).
    assert (Hs' : get_or d (py "status") (JStr em_dash) = JStr s)
      by (unfold get_or; rewrite Hs; reflexivity).
    destruct (render_valid_result d s w Hv' Hs' Hm Hmeds) as [after [E F]].
    rewrite (lookup_colors_unknown s Hu) in E.
    exists after. split; assumption.
Qed.

(** An invalid result is drawn as one error box with the reason, and the
    run goes on. *)
Lemma render_invalid_result (d : list (pystr * JSON)) (w : World) :
  truthy (get_or d (py "valid") JNull) = false ->
  render_single_result' (JDict d) w
  = (Returned tt,
     log_ui [StError (cross_mark ++ py " Invalid prescription " ++ em_dash ++
                      py " " ++
                      format_value str_other
                        (get_or d (py "error") (JStr (py "Unknown error"))))]
       w).
Proof.
  intros Hv. unfold render_single_result.
  run_step. rewrite Hv. cbn [negb]. run_step. reflexivity.
Qed.

Lemma call_api_success (payload : JSON) (w : World) (k : pystr) (r : Response) :
  secret_api_key w = Some k -> k <> [] ->
  remote w (post_request k payload) = Responds r ->
  (200 <= status_code r <= 299)%Z ->
  call_api payload w = (decoded r, log_http (post_request k payload) w).
Proof.
  intros Hk Hne Hr Hs.
  rewrite (call_api_with_key payload w k r Hk Hne Hr). unfold ok.
  repeat match goal with
         | |- context [(?a =? ?b)%Z] => destruct (Z.eqb_spec a b); try lia
         | |- context [(?a <=? ?b)%Z] => destruct (Z.leb_spec a b); try lia
         | |- context [(?a <? ?b)%Z] => destruct (Z.ltb_spec a b); try lia
         end; reflexivity.
Qed.

(** C9: a 2xx answer whose object has [valid = false] comes back from
    [call_api] as it is: the run neither stops nor raises and nothing is
    drawn by the call.  The object still holds its [error] entry; only
    [render_single_result] shows it, as one error box with that text, and
    it returns. *)
Theorem invalid_result_is_data (payload : JSON) (w : World) (k : pystr)
    (r : Response) (d : list (pystr * JSON)) :
  secret_api_key w = Some k -> k <> [] ->
  remote w (post_request k payload) = Responds r ->
  (200 <= status_code r <= 299)%Z ->
  json r = Some (JDict d) ->
  lookup (py "valid") d = Some (JBool false) ->
  call_api payload w
  = (Returned (JDict d), log_http (post_request k payload) w)
  /\ ui (snd (call_api payload w)) = ui w
  /\ (forall w',
        render_single_result' (JDict d) w'
        = (Returned tt,
           log_ui [StError (cross_mark ++ py " Invalid prescription " ++
                            em_dash ++ py " " ++
                            format_value str_other
                              (get_or d (py "error")
                                 (JStr (py "Unknown error"))))] w'))
  /\ (forall reason, lookup (py "error") d = Some (JStr reason) ->
        format_value str_other
          (get_or d (py "error") (JStr (py "Unknown error"))) = reason).
Proof.
  intros Hk Hne Hr Hs Hj Hv.
  assert (E : call_api payload w
              = (Returned (JDict d), log_http (post_request k payload) w)).
  { rewrite (call_api_success payload w k r Hk Hne Hr Hs).
    unfold decoded. rewrite Hj. reflexivity. }
  split; [exact E|]. split; [rewrite E; reflexivity|]. split.
  - intros w'. apply render_invalid_result.
    unfold get_or. rewrite Hv. reflexivity.
  - intros reason Hreason. unfold get_or. rewrite Hreason. reflexivity.
Qed.
End Rendering.

(** * Worked examples *)

Lemma batch_items_normalised_witness :
  let lines := splitlines (py " a  ") in
  List.length (batch_items (py " a  ")) + List.length (filter blank lines)
  = List.length lines.
Proof.
  exact (proj2 (proj2 (proj2 (proj2 (batch_items_normalised (py " a  ")))))).
Defined.

Lemma payload_has_one_key_witness :
  single_payload (py "Token") (py "abc-123")
  = JDict [(py "token", JStr (py "abc-123"))].
Proof.
  exact (proj1 (proj2 (proj2 payload_has_one_key))).
Defined.

Lemma batch_cap_truncates_witness :
  let w := fresh_world (Some (py "secret")) Fails in
  http_log (snd (tab_batch ascii_upper sample_str_other pystr
                   sample_fromisoformat sample_strftime sample_DataFrame_error
                   (py "Tokens") sample_raw_input true w))
  = [post_request (py "secret")
       (batch_payload (py "Tokens") (firstn 50 (batch_items sample_raw_input)))].
Proof.
  intros w.
  refine (proj1 (batch_cap_truncates ascii_upper sample_str_other pystr
                   sample_fromisoformat sample_strftime sample_DataFrame_error
                   (py "Tokens") sample_raw_input w (py "secret")
                   eq_refl _ _)).
  - discriminate.
  - vm_compute. discriminate.
Defined.

Lemma batch_summary_counts_witness :
  batch_summary (JList sample_results) (fresh_world None Fails)
  = (Returned (3, 1, 2)%Z, fresh_world None Fails).
Proof.
  refine (proj1 (batch_summary_counts ascii_upper sample_str_other pystr
                   sample_fromisoformat sample_strftime sample_DataFrame_error
                   sample_results (fresh_world None Fails) _)).
  repeat constructor.
Defined.

Lemma fmt_date_total_witness :
  let w := fresh_world None Fails in
  fmt_date pystr sample_fromisoformat sample_strftime
    (JStr (py "2024-01-01T00:00:00Z")) w
  = (Returned (JStr (py "Jan 01, 2024 00:00 UTC")), w).
Proof.
  intros w.
  refine (proj1 (proj2 (proj2
    (fmt_date_total pystr sample_fromisoformat sample_strftime
       (JStr (py "2024-01-01T00:00:00Z")) w)))
    (py "2024-01-01T00:00:00Z") (py "2024-01-01T00:00:00+00:00")
    eq_refl _ eq_refl).
  discriminate.
Defined.

Lemma status_badge_accepts_any_witness :
  let w := fresh_world None Fails in
  exists after,
    render_single_result ascii_upper sample_str_other pystr
      sample_fromisoformat sample_strftime sample_DataFrame_error (JDict sample_unknown_status) w
    = (Returned tt,
       log_ui ([StSuccess (check_mark ++ py " Valid Prescription");
                StColumns 3;
                StMetric (py "Rx Number") (JStr em_dash);
                StMetric (py "Status")
                  (JStr (white_circle ++ py " PENDING"))] ++ after) w)
    /\ Forall not_error after.
Proof.
  intros w.
  refine (proj2 (status_badge_accepts_any ascii_upper sample_str_other pystr
                   sample_fromisoformat sample_strftime sample_DataFrame_error (py "pending") w)
            sample_unknown_status eq_refl eq_refl _ eq_refl
            (or_introl eq_refl)).
  simpl. intros [H|[H|[H|[H|[]]]]]; discriminate.
Defined.

Lemma invalid_result_is_data_witness :
  let r := {| status_code := 200; text := py "{...}";
              json := Some (JDict sample_invalid) |} in
  let w := fresh_world (Some (py "secret")) (Responds r) in
  call_api token_payload w
  = (Returned (JDict sample_invalid),
     log_http (post_request (py "secret") token_payload) w).
Proof.
  intros r w.
  refine (proj1 (invalid_result_is_data ascii_upper sample_str_other pystr
                   sample_fromisoformat sample_strftime sample_DataFrame_error
                   token_payload w (py "secret") r sample_invalid
                   eq_refl _ eq_refl _ eq_refl eq_refl)).
  - discriminate.
  - simpl; lia.
Defined.

(** * Further properties of the script *)

(** ** Frames *)

Section Frames.

Variable X : Type.
Variable f : World -> X.
Hypothesis f_ui : forall evs w, f (log_ui evs w) = f w.

Lemma preserves_ret {A} (a : A) : preserves f (ret a).
Proof. intros w; reflexivity. Qed.

Lemma preserves_raise {A} (e : Exn) : preserves f (@raise A e).
Proof. intros w; reflexivity. Qed.

Lemma preserves_stop {A} : preserves f (@st_stop A).
Proof. intros w; reflexivity. Qed.

Lemma preserves_emit (e : UiEvent) : preserves f (emit e).
Proof. intros w; apply f_ui. Qed.

Lemma preserves_st_metric (label : pystr) (v : JSON) :
  preserves f (st_metric label v).
Proof.
  unfold st_metric.
  destruct v; (apply preserves_raise || apply preserves_emit).
Qed.

Lemma preserves_bind {A B} (c : M A) (k : A -> M B) :
  preserves f c -> (forall a, preserves f (k a)) -> preserves f (bind c k).
Proof.
  intros Hc Hk w. specialize (Hc w). unfold bind.
  destruct (c w) as [[a| |e] w']; simpl in *; [|exact Hc|exact Hc].
  rewrite (Hk a w'). exact Hc.
Qed.

Lemma preserves_try {A} (c h : M A) :
  preserves f c -> preserves f h -> preserves f (try_except c h).
Proof.
  intros Hc Hh w. specialize (Hc w). unfold try_except.
  destruct (c w) as [[a| |e] w']; simpl in *; [exact Hc|exact Hc|].
  rewrite (Hh w'). exact Hc.
Qed.

Lemma preserves_py_get obj k dflt : preserves f (py_get obj k dflt).
Proof.
  unfold py_get. destruct obj; try apply preserves_raise.
  destruct (lookup k d); apply preserves_ret.
Qed.

Lemma preserves_py_getitem obj k : preserves f (py_getitem obj k).
Proof.
  unfold py_getitem. destruct obj; try apply preserves_raise.
  destruct (lookup k d); [apply preserves_ret | apply preserves_raise].
Qed.

Lemma preserves_py_len obj : preserves f (py_len obj).
Proof.
  unfold py_len. destruct obj; (apply preserves_raise || apply preserves_ret).
Qed.

Lemma preserves_py_iter obj : preserves f (py_iter obj).
Proof.
  unfold py_iter. destruct obj; (apply preserves_raise || apply preserves_ret).
Qed.

End Frames.

Ltac frame_step :=
  first
    [ apply preserves_ret | apply preserves_raise | apply preserves_stop
    | apply preserves_py_get | apply preserves_py_getitem
    | apply preserves_py_len | apply preserves_py_iter
    | apply preserves_emit; intros; reflexivity
    | apply preserves_st_metric; intros; reflexivity
    | apply preserves_try
    | apply preserves_bind; [| intros ?]
    | match goal with
      | |- preserves _ (if ?b then _ else _) => destruct b
      | |- preserves _ (match ?x with _ => _ end) => destruct x
      end ].

Section Script.

Variable upper : pystr -> pystr.
Variable str_other : JSON -> pystr.
Variable datetime : Type.
Variable fromisoformat : pystr -> option datetime.
Variable strftime : datetime -> pystr -> pystr.
Variable DataFrame_error : JSON -> option Exn.

Local Abbreviation fmt_date' := (fmt_date datetime fromisoformat strftime).
Local Abbreviation render_single_result' :=
  (render_single_result upper str_other datetime fromisoformat strftime
     DataFrame_error).
Local Abbreviation render_each' :=
  (render_each upper str_other datetime fromisoformat strftime
     DataFrame_error).
Local Abbreviation render_batch_results' :=
  (render_batch_results upper str_other datetime fromisoformat strftime
     DataFrame_error).
Local Abbreviation tab_batch' :=
  (tab_batch upper str_other datetime fromisoformat strftime
     DataFrame_error).
Local Abbreviation tab_single' :=
  (tab_single upper str_other datetime fromisoformat strftime
     DataFrame_error).

Section Drawing.

Variable X : Type.
Variable f : World -> X.
Hypothesis f_ui : forall evs w, f (log_ui evs w) = f w.

Ltac frame_auto :=
  repeat first [ apply preserves_emit; exact f_ui
               | apply preserves_st_metric; exact f_ui | frame_step ].

Lemma preserves_fmt_date iso : preserves f (fmt_date' iso).
Proof.
  unfold fmt_date, py_replace_Z, datetime_fromisoformat. frame_auto.
Qed.

Lemma preserves_status_badge status : preserves f (status_badge upper status).
Proof. unfold status_badge, colors_get, py_upper. frame_auto. Qed.

Lemma preserves_pd_DataFrame meds :
  preserves f (pd_DataFrame DataFrame_error meds).
Proof. unfold pd_DataFrame. frame_auto. Qed.

Lemma preserves_render_single_result data :
  preserves f (render_single_result' data).
Proof.
  unfold render_single_result.
  repeat first [ apply preserves_fmt_date | apply preserves_status_badge
               | apply preserves_pd_DataFrame
               | apply preserves_emit; exact f_ui
               | apply preserves_st_metric; exact f_ui | frame_step ].
Qed.

Lemma preserves_count_valid rs : preserves f (count_valid rs).
Proof.
  induction rs as [|r rs IH]; simpl; [frame_auto|].
  repeat first [ apply IH | frame_step ].
Qed.

Lemma preserves_batch_summary results : preserves f (batch_summary results).
Proof.
  unfold batch_summary. repeat first [ apply preserves_count_valid | frame_step ].
Qed.

Lemma preserves_render_each total i rs : preserves f (render_each' total i rs).
Proof.
  revert i; induction rs as [|r rs IH]; intros i; simpl; [frame_auto|].
  repeat first [ apply IH | apply preserves_render_single_result
               | apply preserves_emit; exact f_ui | frame_step ].
Qed.

Lemma preserves_render_batch_results results :
  preserves f (render_batch_results' results).
Proof.
  unfold render_batch_results.
  apply preserves_bind; [apply preserves_batch_summary|]. intros [[t v] i].
  repeat first [ apply preserves_render_each
               | apply preserves_emit; exact f_ui
               | apply preserves_st_metric; exact f_ui | frame_step ].
Qed.

Lemma preserves_results_list result : preserves f (results_list result).
Proof. unfold results_list. frame_auto. Qed.

Hypothesis f_http : forall rq w, f (log_http rq w) = f w.

Lemma preserves_call_api payload : preserves f (call_api payload).
Proof.
  unfold call_api.
  apply preserves_bind; [intros w; rewrite get_api_key_run; reflexivity|].
  intros key.
  apply preserves_bind; [frame_auto|]. intros _.
  apply preserves_bind.
  - intros w. unfold requests_post.
    destruct (remote w _); simpl; apply f_http.
  - intros resp. unfold resp_json. frame_auto.
Qed.

End Drawing.

(** ** The verification call, further *)

Lemma preserves_after {X A B} (f : World -> X) (c : M A) (k : A -> M B) w :
  (forall a, preserves f (k a)) -> f (snd (bind c k w)) = f (snd (c w)).
Proof.
  intros Hk. unfold bind.
  destruct (c w) as [[a| |e] w']; simpl; [apply Hk | reflexivity | reflexivity].
Qed.

Lemma call_api_without_key (payload : JSON) (w : World) :
  key_truthy (secret_api_key w) = false ->
  call_api payload w = (Stopped, log_ui [StError (shown MissingCredential)] w).
Proof.
  intros H. unfold call_api.
  rewrite (bind_returned _ _ w _ w (get_api_key_run w)), H. reflexivity.
Qed.

Lemma call_api_when_post_fails (payload : JSON) (w : World) (k : pystr) :
  secret_api_key w = Some k -> k <> [] ->
  remote w (post_request k payload) = Fails ->
  call_api payload w
  = (Raised RequestException, log_http (post_request k payload) w).
Proof.
  intros Hk Hne Hr. unfold call_api.
  rewrite (bind_returned _ _ w _ w (get_api_key_run w)), Hk.
  destruct k as [|c k]; [contradiction|]. simpl negb. cbv iota.
  rewrite (bind_returned (ret tt) _ w tt w eq_refl).
  rewrite (bind_raised _ _ w RequestException
             (log_http (post_request (c :: k) payload) w)); [reflexivity|].
  unfold requests_post. simpl key_value.
  change {| url := API_URL;
            headers := [(py "Content-Type", py "application/json");
                        (py "x-api-key", c :: k)];
            body := payload; timeout := 30 |}
    with (post_request (c :: k) payload).
  rewrite Hr. reflexivity.
Qed.

Lemma key_truthy_some (w : World) :
  key_truthy (secret_api_key w) = true ->
  exists k, secret_api_key w = Some k /\ k <> [].
Proof.
  destruct (secret_api_key w) as [[|c k]|]; simpl; try discriminate.
  intros _. exists (c :: k). split; [reflexivity | discriminate].
Qed.

(** X1: one run of [call_api] calls [requests.post] at most once, and with
    a non-empty key exactly once: with the fixed endpoint as URL, the JSON
    content type and the key under [x-api-key] as headers, the payload as
    [json] and 30 as timeout.  The secret, the service and the session
    state are as before the call.  What the library makes of the call, one
    request, several after a redirect, or none for a header it refuses, is
    not the script's doing and is not counted here. *)
Theorem call_api_single_request (payload : JSON) (w : World) :
  (exists rqs, http_log (snd (call_api payload w)) = http_log w ++ rqs
               /\ List.length rqs <= 1)
  /\ (forall k, secret_api_key w = Some k -> k <> [] ->
        http_log (snd (call_api payload w))
        = http_log w ++ [{| url := API_URL;
                            headers := [(py "Content-Type",
                                         py "application/json");
                                        (py "x-api-key", k)];
                            body := payload;
                            timeout := 30 |}])
  /\ surroundings (snd (call_api payload w)) = surroundings w
  /\ session (snd (call_api payload w)) = session w.
Proof.
  split; [|split; [|split]].
  - destruct (runs_call_api payload w) as [_ H]. exact H.
  - intros k Hk Hne. apply (call_api_posts_once payload w k Hk Hne).
  - apply (preserves_call_api _ surroundings); intros; reflexivity.
  - apply (preserves_call_api _ session); intros; reflexivity.
Qed.

(** X2: when the post itself fails (no answer from the service), [call_api]
    ends with the exception of [requests]: it is not caught, nothing is
    drawn, and the one request stays in the trace. *)
Theorem call_api_transport_failure (payload : JSON) (w : World) (k : pystr) :
  secret_api_key w = Some k -> k <> [] ->
  remote w (post_request k payload) = Fails ->
  call_api payload w
  = (Raised RequestException, log_http (post_request k payload) w)
  /\ ui (snd (call_api payload w)) = ui w.
Proof.
  intros Hk Hne Hr.
  rewrite (call_api_when_post_fails payload w k Hk Hne Hr).
  split; reflexivity.
Qed.

(** X3: [call_api] stops only with an explanation: a run that stops has
    drawn exactly one error box, and a run that returns or raises has drawn
    nothing. *)
Theorem call_api_stops_with_message (payload : JSON) (w : World) :
  match fst (call_api payload w) with
  | Stopped => exists msg, ui (snd (call_api payload w)) = ui w ++ [StError msg]
  | _ => ui (snd (call_api payload w)) = ui w
  end.
Proof.
  destruct (key_truthy (secret_api_key w)) eqn:Hkey.
  - destruct (key_truthy_some w Hkey) as [k [Hk Hne]].
    destruct (remote w (post_request k payload)) as [r|] eqn:Hr.
    + rewrite (call_api_with_key payload w k r Hk Hne Hr).
      repeat match goal with
             | |- context [if ?b then _ else _] => destruct b
             end; simpl; try (eexists; reflexivity).
      unfold decoded. destruct (json r); reflexivity.
    + rewrite (call_api_when_post_fails payload w k Hk Hne Hr). reflexivity.
  - rewrite (call_api_without_key payload w Hkey). simpl.
    eexists; reflexivity.
Qed.

(** ** The two click handlers *)

Lemma tab_single_run (input_type value : pystr) (w : World) :
  tab_single' input_type value true w
  = bind (call_api (single_payload input_type value))
         (fun result => set_last_single_raw result ;;
                        render_single_result' result)
         (log_ui [single_spinner] w).
Proof.
  unfold tab_single.
  rewrite (bind_returned (emit single_spinner) _ w tt
             (log_ui [single_spinner] w) eq_refl).
  reflexivity.
Qed.

Lemma tab_batch_run (batch_type raw : pystr) (w : World) :
  batch_items raw <> [] ->
  tab_batch' batch_type raw true w
  = bind (call_api (batch_payload batch_type (firstn 50 (batch_items raw))))
         (fun result => set_last_batch_raw result ;;
                        rl <- results_list result ;;
                        render_batch_results' rl)
         (before_batch_call (batch_items raw) w).
Proof.
  intros Hne. set (items := batch_items raw).
  assert (Hnb : match items with [] => false | _ :: _ => true end = true)
    by (unfold items; destruct (batch_items raw); [contradiction | reflexivity]).
  unfold tab_batch. fold items. rewrite Hnb. simpl andb. cbv iota.
  rewrite (bind_returned (emit (batch_caption (List.length items))) _ w tt
             (log_ui [batch_caption (List.length items)] w) eq_refl).
  rewrite (bind_returned _ _ _ _ _
             (cap_items_run items (log_ui [batch_caption (List.length items)] w))).
  unfold before_batch_call.
  destruct (50 <? List.length items)%nat.
  - rewrite (bind_returned (emit (batch_spinner (List.length (firstn 50 items))))
               _ _ tt _ eq_refl).
    rewrite !log_ui_app. reflexivity.
  - rewrite (bind_returned (emit (batch_spinner (List.length (firstn 50 items))))
               _ _ tt _ eq_refl).
    rewrite !log_ui_app. reflexivity.
Qed.

Lemma batch_items_blank (raw : pystr) :
  forallb blank (splitlines raw) = true -> batch_items raw = [].
Proof.
  intros H. rewrite batch_items_unfold.
  induction (splitlines raw) as [|l ls IH]; [reflexivity|].
  simpl in H. apply andb_true_iff in H as [Hl Hls].
  rewrite trimmed_nonblank_cons, Hl. exact (IH Hls).
Qed.

(** X4: when [st.button] reports no press, a run of either tab calls
    [requests.post] not at all and leaves the session state alone.  The
    single tab draws nothing; the batch tab draws nothing either when its
    input has no non-blank line. *)
Theorem handlers_idle (w : World) :
  (forall input_type value,
     tab_single' input_type value false w = (Returned tt, w))
  /\ (forall batch_type raw,
        fst (tab_batch' batch_type raw false w) = Returned tt
        /\ http_log (snd (tab_batch' batch_type raw false w)) = http_log w
        /\ session (snd (tab_batch' batch_type raw false w)) = session w)
  /\ (forall batch_type raw,
        forallb blank (splitlines raw) = true ->
        tab_batch' batch_type raw false w = (Returned tt, w)).
Proof.
  split; [reflexivity|]. split.
  - intros batch_type raw. unfold tab_batch.
    destruct (batch_items raw); repeat split.
  - intros batch_type raw H. unfold tab_batch.
    rewrite (batch_items_blank raw H). reflexivity.
Qed.

(** X5: without a click the batch tab draws its caption and nothing else:
    the caption counts every non-blank line, also beyond 50, and nothing is
    sent. *)
Theorem tab_batch_caption_only (batch_type raw : pystr) (w : World) :
  batch_items raw <> [] ->
  tab_batch' batch_type raw false w
  = (Returned tt,
     log_ui [StCaption
               (str_of_int
                  (Z.of_nat
                     (List.length
                        (filter (fun l => negb (blank l)) (splitlines raw))))
                ++ py " item(s) entered " ++ em_dash ++
                py " max 50 allowed per request.")] w).
Proof.
  intros Hne.
  assert (L : List.length (batch_items raw)
              = List.length (filter (fun l => negb (blank l)) (splitlines raw))).
  { rewrite batch_items_unfold. unfold trimmed_nonblank.
    rewrite length_map. f_equal. apply filter_ext. intros l. apply strip_blank. }
  unfold tab_batch.
  destruct (batch_items raw) as [|i0 items] eqn:E; [contradiction|].
  rewrite <- L. reflexivity.
Qed.

Lemma rest_single_preserves {X} (f : World -> X) :
  (forall evs w, f (log_ui evs w) = f w) ->
  (forall v w, f (snd (set_last_single_raw v w)) = f w) ->
  forall result,
    preserves f (set_last_single_raw result ;; render_single_result' result).
Proof.
  intros f_ui f_set result.
  apply preserves_bind; [intros w; apply f_set | intros _].
  apply preserves_render_single_result; exact f_ui.
Qed.

Lemma rest_batch_preserves {X} (f : World -> X) :
  (forall evs w, f (log_ui evs w) = f w) ->
  (forall v w, f (snd (set_last_batch_raw v w)) = f w) ->
  forall result,
    preserves f (set_last_batch_raw result ;;
                 rl <- results_list result ;;
                 render_batch_results' rl).
Proof.
  intros f_ui f_set result.
  apply preserves_bind; [intros w; apply f_set | intros _].
  apply preserves_bind; [apply preserves_results_list; exact f_ui | intros rl].
  apply preserves_render_batch_results; exact f_ui.
Qed.

(** X6: a click on the single tab with a key and a non-blank value calls
    [requests.post] exactly once, and the body handed over holds the value
    without the whitespace around it: a non-empty string with no whitespace
    at either end, under [token] for the input type "Token" and under [url]
    otherwise. *)
Theorem tab_single_sends_trimmed (input_type value : pystr) (w : World)
    (k : pystr) :
  secret_api_key w = Some k -> k <> [] -> blank value = false ->
  let key := if str_eqb input_type (py "Token") then py "token" else py "url" in
  http_log (snd (tab_single' input_type value true w))
  = http_log w ++ [post_request k (JDict [(key, JStr (strip value))])]
  /\ strip value <> [] /\ trimmed (strip value)
  /\ exists pre post, value = pre ++ strip value ++ post
                      /\ blank pre = true /\ blank post = true.
Proof.
  intros Hk Hne Hb key. split; [|split; [|split]].
  - rewrite (tab_single_run input_type value w).
    rewrite (preserves_after http_log _ _ _
               (rest_single_preserves http_log
                  (fun _ _ => eq_refl) (fun _ _ => eq_refl))).
    rewrite (call_api_posts_once _ (log_ui [single_spinner] w) k Hk Hne).
    unfold single_payload, key.
    destruct (str_eqb input_type (py "Token")); reflexivity.
  - intros E. pose proof (strip_blank value) as H.
    rewrite E, Hb in H. discriminate.
  - apply strip_trimmed.
  - apply strip_split.
Qed.

(** X7: without a usable key a click sends nothing on either tab: the run
    stops on the missing-key box, drawn after the spinner, and the session
    state is not written. *)
Theorem handlers_stop_without_key (w : World) :
  secret_api_key w = None \/ secret_api_key w = Some [] ->
  (forall input_type value,
     blank value = false ->
     tab_single' input_type value true w
     = (Stopped,
        log_ui [single_spinner; StError (shown MissingCredential)] w))
  /\ (forall batch_type raw,
        batch_items raw <> [] ->
        tab_batch' batch_type raw true w
        = (Stopped,
           log_ui [StError (shown MissingCredential)]
             (before_batch_call (batch_items raw) w))
        /\ http_log (snd (tab_batch' batch_type raw true w)) = http_log w
        /\ session (snd (tab_batch' batch_type raw true w)) = session w).
Proof.
  intros H.
  assert (Hkey : forall evs, key_truthy (secret_api_key (log_ui evs w)) = false)
    by (intros evs; simpl; destruct H as [-> | ->]; reflexivity).
  split.
  - intros input_type value Hb.
    rewrite (tab_single_run input_type value w).
    rewrite (bind_stopped _ _ _ _
               (call_api_without_key _ (log_ui [single_spinner] w)
                  (Hkey [single_spinner]))).
    rewrite log_ui_app. reflexivity.
  - intros batch_type raw Hne.
    rewrite (tab_batch_run batch_type raw w Hne).
    unfold before_batch_call.
    rewrite (bind_stopped _ _ _ _ (call_api_without_key _ _ (Hkey _))).
    repeat split.
Qed.

Lemma runs_any {A} (P : UiEvent -> Prop) n (m : M A) :
  runs P n m -> runs any_event n m.
Proof.
  intros H w. destruct (H w) as [[evs [E _]] R]. split; [|exact R].
  exists evs. split; [exact E|]. apply Forall_forall. intros; exact I.
Qed.

(** X8: whatever the inputs, the secret and the service, one run of a
    handler calls [requests.post] at most once: the script has no retry and
    a batch is one call, not one per item. *)
Theorem handlers_send_at_most_once (w : World) :
  (forall input_type value clicked,
     exists rqs,
       http_log (snd (tab_single' input_type value clicked w))
       = http_log w ++ rqs /\ List.length rqs <= 1)
  /\ (forall batch_type raw clicked,
        exists rqs,
          http_log (snd (tab_batch' batch_type raw clicked w))
          = http_log w ++ rqs /\ List.length rqs <= 1).
Proof.
  assert (S : forall input_type value clicked,
             runs any_event 1 (tab_single' input_type value clicked)).
  { intros input_type value clicked. unfold tab_single.
    destruct clicked.
    - apply runs_bind0; [apply runs_emit; exact I | intros _].
      apply (runs_bind any_event 1 0);
        [apply (runs_any not_warning), runs_call_api | intros result].
      apply runs_bind0; [apply runs_set_last_single_raw | intros _].
      apply (runs_any not_warning), runs_render_single_result.
    - apply (runs_weaken any_event 0 1); [lia | apply runs_ret]. }
  assert (B : forall batch_type raw clicked,
             runs any_event 1 (tab_batch' batch_type raw clicked)).
  { intros batch_type raw clicked. unfold tab_batch.
    apply runs_bind0.
    { destruct (batch_items raw); [apply runs_ret | apply runs_emit; exact I]. }
    intros _.
    destruct clicked.
    - apply runs_bind0.
      { unfold cap_items. destruct (50 <? _)%nat; [|apply runs_ret].
        apply runs_bind0; [apply runs_emit; exact I | intros _; apply runs_ret]. }
      intros items.
      apply runs_bind0; [apply runs_emit; exact I | intros _].
      apply (runs_bind any_event 1 0);
        [apply (runs_any not_warning), runs_call_api | intros result].
      apply runs_bind0; [apply runs_set_last_batch_raw | intros _].
      apply runs_bind0;
        [apply (runs_any not_warning), runs_results_list | intros rl].
      apply (runs_any not_warning), runs_render_batch_results.
    - apply (runs_weaken any_event 0 1); [lia | apply runs_ret]. }
  split.
  - intros input_type value clicked.
    destruct (S input_type value clicked w) as [_ H]. exact H.
  - intros batch_type raw clicked.
    destruct (B batch_type raw clicked w) as [_ H]. exact H.
Qed.

(** ** The items of a batch, further *)








(** ** Rendering, further *)

Ltac exec_step :=
  match goal with
  | |- context [bind ?m ?f ?w] =>
      erewrite (bind_returned m f w)
        by first [ apply py_get_run | apply emit_run
                 | apply st_metric_run; first [assumption | reflexivity]
                 | reflexivity ]
  end.

Lemma status_badge_not_string (status : JSON) (w : World) :
  is_string status = false ->
  status_badge upper status w = (Raised (status_exception status), w).
Proof.
  intros H. destruct status; try discriminate; reflexivity.
Qed.

(** X10: only a string is accepted as a status.  For any other value (null,
    a boolean, a number, a list, an object) [status_badge] raises, and a
    valid result holding such a status, its prescription number being a
    value [st.metric] takes, is drawn up to its Rx Number metric and then
    ends in that exception.  A result with no [status] entry is not
    affected: where the rest of it can be drawn, its Status metric shows the
    white circle and the dash. *)
Theorem status_must_be_string (status : JSON) (w : World) :
  is_string status = false ->
  status_badge upper status w = (Raised (status_exception status), w)
  /\ (forall d,
        truthy (get_or d (py "valid") JNull) = true ->
        lookup (py "status") d = Some status ->
        metric_accepts (get_or d (py "prescription_number") (JStr em_dash))
        = true ->
        render_single_result' (JDict d) w
        = (Raised (status_exception status),
           log_ui [StSuccess (check_mark ++ py " Valid Prescription");
                   StColumns 3;
                   StMetric (py "Rx Number")
                     (get_or d (py "prescription_number") (JStr em_dash))] w))
  /\ (forall d,
        truthy (get_or d (py "valid") JNull) = true ->
        lookup (py "status") d = None ->
        metrics_drawable d = true ->
        truthy (get_or d (py "medications") (JList [])) = false
        \/ DataFrame_error (get_or d (py "medications") (JList [])) = None ->
        exists after,
          render_single_result' (JDict d) w
          = (Returned tt,
             log_ui ([StSuccess (check_mark ++ py " Valid Prescription");
                      StColumns 3;
                      StMetric (py "Rx Number")
                        (get_or d (py "prescription_number") (JStr em_dash));
                      StMetric (py "Status")
                        (JStr (white_circle ++ py " " ++ upper em_dash))]
                     ++ after) w)).
Proof.
  intros Hs. split; [apply status_badge_not_string; exact Hs|]. split.
  - intros d Hv Hst Hrx. unfold render_single_result.
    exec_step. rewrite Hv. cbn [negb].
    do 5 exec_step.
    assert (G : get_or d (py "status") (JStr em_dash) = status)
      by (unfold get_or; rewrite Hst; reflexivity).
    rewrite G.
    erewrite bind_raised by (apply status_badge_not_string; exact Hs).
    rewrite !log_ui_app. reflexivity.
  - intros d Hv Hn Hm Hmeds.
    assert (G : get_or d (py "status") (JStr em_dash) = JStr em_dash)
      by (unfold get_or; rewrite Hn; reflexivity).
    destruct (render_valid_result upper str_other datetime fromisoformat
                strftime DataFrame_error d em_dash w Hv G Hm Hmeds)
      as [after [E _]].
    exists after. exact E.
Qed.

Lemma render_not_object (v : JSON) (w : World) :
  is_dict v = false ->
  render_single_result' v w = (Raised AttributeError, w).
Proof.
  intros H. destruct v; try discriminate; reflexivity.
Qed.

(** X11: a 2xx answer that decodes to something other than an object (an
    array, a string, a number, null) is stored as the last response and
    then ends the single tab in an [AttributeError]: besides the spinner
    nothing is drawn. *)
Theorem tab_single_not_object (input_type value : pystr) (w : World)
    (k : pystr) (r : Response) (v : JSON) :
  secret_api_key w = Some k -> k <> [] -> blank value = false ->
  remote w (post_request k (single_payload input_type value)) = Responds r ->
  (200 <= status_code r <= 299)%Z ->
  json r = Some v -> is_dict v = false ->
  let w' := snd (tab_single' input_type value true w) in
  fst (tab_single' input_type value true w) = Raised AttributeError
  /\ ui w' = ui w ++ [single_spinner]
  /\ last_single_raw w' = Some v.
Proof.
  intros Hk Hne Hb Hr Hs Hj Hd w'. unfold w'.
  rewrite (tab_single_run input_type value w).
  assert (C : call_api (single_payload input_type value)
                (log_ui [single_spinner] w)
              = (Returned v,
                 log_http (post_request k (single_payload input_type value))
                   (log_ui [single_spinner] w))).
  { rewrite (call_api_success _ (log_ui [single_spinner] w) k r Hk Hne Hr Hs).
    unfold decoded. rewrite Hj. reflexivity. }
  rewrite (bind_returned _ _ _ _ _ C).
  erewrite (bind_returned (set_last_single_raw v)) by reflexivity.
  rewrite (render_not_object v _ Hd). repeat split.
Qed.

(** ** The batch, further *)

Lemma count_valid_raises (rs : list JSON) (w : World) :
  forallb is_dict rs = false ->
  count_valid rs w = (Raised AttributeError, w).
Proof.
  induction rs as [|r rs IH]; simpl; [discriminate|].
  destruct (is_dict r) eqn:Hr; simpl.
  - intros Hrs. destruct r; try discriminate.
    rewrite (bind_returned _ _ w _ w (py_get_run d (py "valid") JNull w)).
    rewrite (bind_raised _ _ w AttributeError w (IH Hrs)). reflexivity.
  - intros _. destruct r; try discriminate; reflexivity.
Qed.

(** X12: the valid counter counts truth values, not booleans: for any list
    of objects, [valid_count] is the number of elements whose [valid] entry
    is truthy in Python's sense, so a non-empty string or a non-zero number
    counts as valid; the counter lies between 0 and [total], and
    [invalid_count] is never negative. *)
Theorem batch_summary_truthy (rs : list JSON) (w : World) :
  forallb is_dict rs = true ->
  let total := Z.of_nat (List.length rs) in
  let valid_count := Z.of_nat (List.length (filter valid_truthy rs)) in
  batch_summary (JList rs) w
  = (Returned (total, valid_count, (total - valid_count)%Z), w)
  /\ (0 <= valid_count <= total)%Z
  /\ (0 <= total - valid_count)%Z
  /\ valid_truthy (JDict [(py "valid", JStr (py "no"))]) = true
  /\ valid_truthy (JDict [(py "valid", JInt 1)]) = true
  /\ valid_truthy (JDict [(py "valid", JNull)]) = false.
Proof.
  intros H total valid_count.
  pose proof (filter_length_le valid_truthy rs) as L.
  split; [|repeat split; try reflexivity; unfold total, valid_count; lia].
  unfold batch_summary.
  rewrite (bind_returned (py_len (JList rs)) _ w total w eq_refl).
  rewrite (bind_returned (py_iter (JList rs)) _ w rs w eq_refl).
  rewrite (bind_returned _ _ w _ w (count_valid_run rs w H)).
  reflexivity.
Qed.

(** X13: the counters are drawn only when the whole batch can be counted.
    A [results] value without a length (null, a boolean, a number) ends the
    rendering in a [TypeError], a list with an element that is not an
    object ends it in an [AttributeError]; in both cases nothing is
    drawn. *)
Theorem render_batch_all_or_nothing (w : World) :
  (forall results,
     match results with
     | JStr _ | JList _ | JDict _ => False
     | _ => True
     end ->
     render_batch_results' results w = (Raised TypeError, w))
  /\ (forall rs,
        forallb is_dict rs = false ->
        render_batch_results' (JList rs) w = (Raised AttributeError, w)).
Proof.
  split.
  - intros results H. destruct results; try contradiction; reflexivity.
  - intros rs H. unfold render_batch_results, batch_summary.
    rewrite (bind_raised _ _ w AttributeError w); [reflexivity|].
    rewrite (bind_returned (py_len (JList rs)) _ w _ w eq_refl).
    rewrite (bind_returned (py_iter (JList rs)) _ w rs w eq_refl).
    rewrite (bind_raised _ _ w AttributeError w (count_valid_raises rs w H)).
    reflexivity.
Qed.

(** X14: a value that is not a string never reaches the date parser.  The
    falsy ones (null, false, 0, an empty list or object) give the dash; the
    truthy ones come back unchanged, the [AttributeError] of the missing
    [replace] being caught. *)
Theorem fmt_date_not_string (iso : JSON) (w : World) :
  is_string iso = false ->
  fmt_date' iso w
  = (Returned (if truthy iso then iso else JStr em_dash), w).
Proof.
  intros H. destruct (truthy iso) eqn:Ht.
  - unfold fmt_date. rewrite Ht. cbn [negb].
    destruct iso; try discriminate; reflexivity.
  - unfold fmt_date. rewrite Ht. reflexivity.
Qed.

(** X15: the session slots hold the last answer received.  A click on the
    single tab stores the decoded answer in [last_single_raw] exactly when
    [call_api] returns one, whether or not the rendering then succeeds; when
    the call stops or raises the slot keeps what it held.  The slot of the
    other tab is never touched.  The same holds for the batch tab with the
    slots exchanged. *)
Theorem handlers_store_last_response (w : World) :
  (forall input_type value,
     blank value = false ->
     let w' := snd (tab_single' input_type value true w) in
     last_batch_raw w' = last_batch_raw w
     /\ match fst (call_api (single_payload input_type value)
                     (log_ui [single_spinner] w)) with
        | Returned result => last_single_raw w' = Some result
        | _ => last_single_raw w' = last_single_raw w
        end)
  /\ (forall batch_type raw,
        batch_items raw <> [] ->
        let w' := snd (tab_batch' batch_type raw true w) in
        last_single_raw w' = last_single_raw w
        /\ match fst (call_api
                        (batch_payload batch_type
                           (firstn 50 (batch_items raw)))
                        (before_batch_call (batch_items raw) w)) with
           | Returned result => last_batch_raw w' = Some result
           | _ => last_batch_raw w' = last_batch_raw w
           end).
Proof.
  split.
  - intros input_type value Hb w'. unfold w'.
    rewrite (tab_single_run input_type value w).
    set (w0 := log_ui [single_spinner] w).
    set (p := single_payload input_type value).
    split.
    + rewrite (preserves_after last_batch_raw _ _ _
                 (rest_single_preserves last_batch_raw
                    (fun _ _ => eq_refl) (fun _ _ => eq_refl))).
      exact (preserves_call_api _ last_batch_raw
               (fun _ _ => eq_refl) (fun _ _ => eq_refl) p w0).
    + pose proof (preserves_call_api _ last_single_raw
                    (fun _ _ => eq_refl) (fun _ _ => eq_refl) p w0) as Hc.
      destruct (call_api p w0) as [[result| |e] w1] eqn:C; simpl in *.
      * rewrite (bind_returned _ _ _ _ _ C).
        rewrite (preserves_after last_single_raw (set_last_single_raw result)
                   (fun _ => render_single_result' result) w1).
        -- reflexivity.
        -- intros _. apply preserves_render_single_result;
             intros; reflexivity.
      * rewrite (bind_stopped _ _ _ _ C). exact Hc.
      * rewrite (bind_raised _ _ _ _ _ C). exact Hc.
  - intros batch_type raw Hne w'. unfold w'.
    rewrite (tab_batch_run batch_type raw w Hne).
    set (w0 := before_batch_call (batch_items raw) w).
    set (p := batch_payload batch_type (firstn 50 (batch_items raw))).
    split.
    + rewrite (preserves_after last_single_raw _ _ _
                 (rest_batch_preserves last_single_raw
                    (fun _ _ => eq_refl) (fun _ _ => eq_refl))).
      exact (preserves_call_api _ last_single_raw
               (fun _ _ => eq_refl) (fun _ _ => eq_refl) p w0).
    + pose proof (preserves_call_api _ last_batch_raw
                    (fun _ _ => eq_refl) (fun _ _ => eq_refl) p w0) as Hc.
      destruct (call_api p w0) as [[result| |e] w1] eqn:C; simpl in *.
      * rewrite (bind_returned _ _ _ _ _ C).
        rewrite (preserves_after last_batch_raw (set_last_batch_raw result)
                   (fun _ => rl <- results_list result ;;
                             render_batch_results' rl) w1).
        -- reflexivity.
        -- intros _. apply preserves_bind.
           ++ apply preserves_results_list; intros; reflexivity.
           ++ intros rl. apply preserves_render_batch_results;
                intros; reflexivity.
      * rewrite (bind_stopped _ _ _ _ C). exact Hc.
      * rewrite (bind_raised _ _ _ _ _ C). exact Hc.
Qed.

(** X16: an answer object without a [results] key is rendered as a batch
    of one: the summary is total 1, with 1 valid when its [valid] entry is
    truthy and 1 invalid otherwise. *)
Theorem single_answer_is_batch_of_one (d : list (pystr * JSON)) (w : World) :
  lookup (py "results") d = None ->
  (rl <- results_list (JDict d) ;; batch_summary rl) w
  = (Returned (if truthy (get_or d (py "valid") JNull)
               then (1, 1, 0)%Z else (1, 0, 1)%Z), w).
Proof.
  intros H.
  assert (R : results_list (JDict d) w = (Returned (JList [JDict d]), w))
    by (unfold results_list, py_get; rewrite H; reflexivity).
  rewrite (bind_returned _ _ w _ w R).
  unfold batch_summary.
  rewrite (bind_returned (py_len (JList [JDict d])) _ w 1%Z w eq_refl).
  rewrite (bind_returned (py_iter (JList [JDict d])) _ w [JDict d] w eq_refl).
  rewrite (bind_returned _ _ w _ w (count_valid_run [JDict d] w eq_refl)).
  unfold get_or. cbn [filter valid_truthy].
  destruct (lookup (py "valid") d) as [v|]; [destruct (truthy v)|];
    reflexivity.
Qed.

Lemma render_each_invalid (total : Z) (ds : list (list (pystr * JSON))) :
  Forall (fun d => truthy (get_or d (py "valid") JNull) = false) ds ->
  forall i w,
    render_each' total i (map JDict ds) w
    = (Returned tt, log_ui (invalid_boxes str_other total i ds) w).
Proof.
  induction 1 as [|d ds Hd _ IH]; intros i w.
  - simpl. rewrite log_ui_nil. reflexivity.
  - cbn [map render_each].
    do 2 exec_step. rewrite Hd.
    exec_step.
    erewrite (bind_returned (render_single_result' (JDict d)))
      by (apply render_invalid_result; exact Hd).
    rewrite IH, !log_ui_app. reflexivity.
Qed.

Lemma invalid_boxes_shape (total i : Z) (ds : list (list (pystr * JSON))) :
  List.length (filter is_error_box (invalid_boxes str_other total i ds))
  = List.length ds
  /\ Forall (fun e => match e with
                      | StExpander _ expanded => expanded = (total <=? 3)%Z
                      | StError _ => True
                      | _ => False
                      end) (invalid_boxes str_other total i ds)
  /\ List.length (invalid_boxes str_other total i ds) = 2 * List.length ds.
Proof.
  revert i; induction ds as [|d ds IH]; intros i.
  - repeat split; constructor.
  - destruct (IH (i + 1)%Z) as [E [F L]].
    cbn [invalid_boxes app filter is_error_box List.length].
    rewrite E, L. repeat split; [|lia].
    constructor; [reflexivity|]. constructor; [exact I | exact F].
Qed.

(** X17: a batch in which no result is valid is drawn in full: the counters
    show n, 0 and n, and after the divider come, in the order of the
    results, one expander and one error box per result and nothing else.
    The expanders are open when the batch has at most three results and
    closed otherwise. *)
Theorem render_batch_all_invalid (ds : list (list (pystr * JSON)))
    (w : World) :
  Forall (fun d => truthy (get_or d (py "valid") JNull) = false) ds ->
  let n := Z.of_nat (List.length ds) in
  exists boxes,
    render_batch_results' (JList (map JDict ds)) w
    = (Returned tt,
       log_ui ([StColumns 3;
                StMetric (py "Total") (JInt n);
                StMetric (check_mark ++ py " Valid") (JInt 0);
                StMetric (cross_mark ++ py " Invalid") (JInt n);
                StDivider] ++ boxes) w)
    /\ List.length boxes = 2 * List.length ds
    /\ List.length (filter is_error_box boxes) = List.length ds
    /\ Forall (fun e => match e with
                        | StExpander _ expanded => expanded = (n <=? 3)%Z
                        | StError _ => True
                        | _ => False
                        end) boxes.
Proof.
  intros H n. exists (invalid_boxes str_other n 1 ds).
  destruct (invalid_boxes_shape n 1 ds) as [E [F L]].
  split; [|repeat split; assumption].
  assert (D : forallb is_dict (map JDict ds) = true)
    by (clear; induction ds; simpl; auto).
  assert (V : filter valid_truthy (map JDict ds) = []).
  { clear -H. induction H as [|d ds Hd _ IH]; [reflexivity|].
    cbn [map filter valid_truthy]. unfold get_or in Hd.
    destruct (lookup (py "valid") d); rewrite ?Hd; exact IH. }
  assert (S : batch_summary (JList (map JDict ds)) w
              = (Returned (n, 0%Z, n), w)).
  { unfold batch_summary.
    rewrite (bind_returned (py_len (JList (map JDict ds))) _ w n w)
      by (unfold py_len, n; rewrite length_map; reflexivity).
    rewrite (bind_returned (py_iter (JList (map JDict ds))) _ w _ w eq_refl).
    rewrite (bind_returned _ _ w _ w (count_valid_run _ w D)), V.
    unfold ret. simpl List.length. rewrite Z.sub_0_r. reflexivity. }
  unfold render_batch_results.
  rewrite (bind_returned _ _ w _ w S). cbv beta iota.
  do 5 exec_step.
  erewrite (bind_returned (py_iter _)) by reflexivity.
  rewrite (render_each_invalid n ds H), !log_ui_app. reflexivity.
Qed.

(** X18: a result whose [valid] is truthy, whose status is a string or
    missing, whose other metric entries are values [st.metric] takes and
    whose medications are empty or make a table, is drawn to the end: the
    run returns, the first widget is the success banner, and no error box
    is drawn. *)
Theorem render_valid_never_fails (d : list (pystr * JSON)) (w : World) :
  truthy (get_or d (py "valid") JNull) = true ->
  lookup (py "status") d = None
  \/ (exists s, lookup (py "status") d = Some (JStr s)) ->
  metrics_drawable d = true ->
  truthy (get_or d (py "medications") (JList [])) = false
  \/ DataFrame_error (get_or d (py "medications") (JList [])) = None ->
  exists evs,
    render_single_result' (JDict d) w
    = (Returned tt,
       log_ui (StSuccess (check_mark ++ py " Valid Prescription") :: evs) w)
    /\ Forall not_error evs.
Proof.
  intros Hv Hs Hm Hmeds.
  assert (exists s, get_or d (py "status") (JStr em_dash) = JStr s) as [s G].
  { unfold get_or. destruct Hs as [-> | [s ->]]; eexists; reflexivity. }
  destruct (render_valid_result upper str_other datetime fromisoformat
              strftime DataFrame_error d s w Hv G Hm Hmeds)
    as [after [E F]].
  eexists. split; [rewrite E; cbn [app]; reflexivity|].
  repeat constructor. exact F.
Qed.

(** X20: what the toolkit or pandas refuses ends the drawing of a valid
    result where it stands.  A prescription number that is a list or an
    object ends it in the toolkit's exception after the banner, no metric
    drawn.  Medications that are truthy but make no table end it in the
    exception of pandas: everything up to the Medications heading is
    drawn, no error box among it, and no table. *)
Theorem render_valid_refused (d : list (pystr * JSON)) (w : World) :
  truthy (get_or d (py "valid") JNull) = true ->
  (metric_accepts (get_or d (py "prescription_number") (JStr em_dash))
   = false ->
   render_single_result' (JDict d) w
   = (Raised StreamlitAPIException,
      log_ui [StSuccess (check_mark ++ py " Valid Prescription");
              StColumns 3] w))
  /\ (forall s e,
        get_or d (py "status") (JStr em_dash) = JStr s ->
        metrics_drawable d = true ->
        truthy (get_or d (py "medications") (JList [])) = true ->
        DataFrame_error (get_or d (py "medications") (JList [])) = Some e ->
        exists evs,
          render_single_result' (JDict d) w
          = (Raised e,
             log_ui (evs ++ [StSubheader (pill ++ py " Medications")]) w)
          /\ Forall not_error evs
          /\ Forall (fun ev => match ev with
                               | StDataframe _ => False
                               | _ => True
                               end) evs).
Proof.
  intros Hv. split.
  - intros Hrx. unfold render_single_result.
    exec_step. rewrite Hv. cbn [negb].
    do 3 exec_step.
    erewrite bind_raised by (apply st_metric_refuses; exact Hrx).
    rewrite !log_ui_app. reflexivity.
  - intros s e Hs Hm Ht He.
    unfold metrics_drawable in Hm.
    repeat (apply andb_true_iff in Hm; destruct Hm as [Hm ?]).
    destruct (fmt_date_drawable datetime fromisoformat strftime
                (get_or d (py "created_at") JNull)) as [issued [Hi Ai]].
    destruct (fmt_date_drawable datetime fromisoformat strftime
                (get_or d (py "valid_until") JNull)) as [until [Hu Au]].
    assert (Ai' : metric_accepts issued = true) by (rewrite Ai; assumption).
    assert (Au' : metric_accepts until = true) by (rewrite Au; assumption).
    unfold render_single_result.
    exec_step. rewrite Hv. cbn [negb].
    do 5 exec_step. rewrite Hs.
    erewrite (bind_returned (status_badge _ _)) by apply status_badge_str.
    do 12 exec_step.
    erewrite (bind_returned (fmt_date' _)) by apply Hi.
    do 2 exec_step.
    erewrite (bind_returned (fmt_date' _)) by apply Hu.
    do 2 exec_step.
    erewrite (bind_returned (if truthy _ then _ else _))
      by apply diagnosis_run.
    exec_step. rewrite Ht.
    exec_step.
    erewrite bind_raised
      by (unfold pd_DataFrame; rewrite He; reflexivity).
    rewrite !log_ui_app.
    eexists. split; [rewrite !app_assoc; reflexivity|].
    split; repeat (apply Forall_app; split); repeat constructor;
      destruct (truthy (get_or d (py "diagnosis") JNull));
      repeat constructor.
Qed.

(** X19: whatever makes [valid] falsy makes the result invalid: false, but
    also null, 0, an empty string, or no [valid] entry at all.  Such a
    result is drawn as a single error box and the run returns; the box
    shows the text of the [error] entry, and "Unknown error" when there is
    none. *)
Theorem render_falsy_is_invalid (d : list (pystr * JSON)) (w : World) :
  truthy (get_or d (py "valid") JNull) = false ->
  (exists reason,
     render_single_result' (JDict d) w
     = (Returned tt,
        log_ui [StError (cross_mark ++ py " Invalid prescription " ++
                         em_dash ++ py " " ++ reason)] w)
     /\ (lookup (py "error") d = None -> reason = py "Unknown error")
     /\ (forall e, lookup (py "error") d = Some (JStr e) -> reason = e))
  /\ (lookup (py "valid") d = None ->
      truthy (get_or d (py "valid") JNull) = false).
Proof.
  intros Hv. split.
  - exists (format_value str_other
              (get_or d (py "error") (JStr (py "Unknown error")))).
    split; [apply render_invalid_result; exact Hv|].
    unfold get_or. split.
    + intros ->. reflexivity.
    + intros e ->. reflexivity.
  - intros H. unfold get_or. rewrite H. reflexivity.
Qed.

End Script.

(** ** Worked examples of the further properties *)

Lemma call_api_single_request_witness :
  let w := fresh_world (Some (py "secret")) Fails in
  http_log (snd (call_api token_payload w))
  = [post_request (py "secret") token_payload].
Proof.
  intros w.
  refine (proj1 (proj2 (call_api_single_request token_payload w))
            (py "secret") eq_refl _).
  discriminate.
Defined.

Lemma call_api_transport_failure_witness :
  let w := fresh_world (Some (py "secret")) Fails in
  call_api token_payload w
  = (Raised RequestException,
     log_http (post_request (py "secret") token_payload) w)
  /\ ui (snd (call_api token_payload w)) = [].
Proof.
  intros w.
  refine (call_api_transport_failure token_payload w (py "secret")
            eq_refl _ eq_refl).
  discriminate.
Defined.

Lemma handlers_idle_witness :
  let w := fresh_world (Some (py "secret")) Fails in
  tab_batch ascii_upper sample_str_other pystr sample_fromisoformat
    sample_strftime sample_DataFrame_error (py "Tokens") (py "   ") false w
  = (Returned tt, w).
Proof.
  intros w.
  exact (proj2 (proj2 (handlers_idle ascii_upper sample_str_other pystr
                         sample_fromisoformat sample_strftime
                         sample_DataFrame_error w))
           (py "Tokens") (py "   ") eq_refl).
Defined.

Lemma tab_batch_caption_only_witness :
  let w := fresh_world (Some (py "secret")) Fails in
  tab_batch ascii_upper sample_str_other pystr sample_fromisoformat
    sample_strftime sample_DataFrame_error (py "Tokens") sample_raw_input false w
  = (Returned tt,
     log_ui [StCaption (py "52 item(s) entered " ++ em_dash ++
                        py " max 50 allowed per request.")] w).
Proof.
  intros w.
  refine (tab_batch_caption_only ascii_upper sample_str_other pystr
            sample_fromisoformat sample_strftime sample_DataFrame_error
            (py "Tokens") sample_raw_input w _).
  vm_compute. discriminate.
Defined.

Lemma tab_single_sends_trimmed_witness :
  let w := fresh_world (Some (py "secret")) Fails in
  http_log (snd (tab_single ascii_upper sample_str_other pystr
                   sample_fromisoformat sample_strftime sample_DataFrame_error
                   (py "Token") (py "  abc-123 ") true w))
  = [post_request (py "secret") token_payload].
Proof.
  intros w.
  refine (proj1 (tab_single_sends_trimmed ascii_upper sample_str_other pystr
                   sample_fromisoformat sample_strftime sample_DataFrame_error
                   (py "Token") (py "  abc-123 ") w (py "secret")
                   eq_refl _ eq_refl)).
  discriminate.
Defined.

Lemma handlers_stop_without_key_witness :
  let w := fresh_world None Fails in
  tab_single ascii_upper sample_str_other pystr sample_fromisoformat
    sample_strftime sample_DataFrame_error (py "Token") (py "abc-123") true w
  = (Stopped, log_ui [single_spinner; StError (shown MissingCredential)] w).
Proof.
  intros w.
  exact (proj1 (handlers_stop_without_key ascii_upper sample_str_other pystr
                  sample_fromisoformat sample_strftime sample_DataFrame_error w (or_introl eq_refl))
           (py "Token") (py "abc-123") eq_refl).
Defined.


Lemma status_must_be_string_witness :
  let w := fresh_world None Fails in
  render_single_result ascii_upper sample_str_other pystr
    sample_fromisoformat sample_strftime sample_DataFrame_error
    (JDict [(py "valid", JBool true); (py "status", JNull)]) w
  = (Raised AttributeError,
     log_ui [StSuccess (check_mark ++ py " Valid Prescription");
             StColumns 3;
             StMetric (py "Rx Number") (JStr em_dash)] w).
Proof.
  intros w.
  exact (proj1 (proj2 (status_must_be_string ascii_upper sample_str_other
                         pystr sample_fromisoformat sample_strftime sample_DataFrame_error
                         JNull w eq_refl))
           [(py "valid", JBool true); (py "status", JNull)]
           eq_refl eq_refl eq_refl).
Defined.

Lemma tab_single_not_object_witness :
  let r := {| status_code := 200; text := py "[]"; json := Some (JList []) |} in
  let w := fresh_world (Some (py "secret")) (Responds r) in
  let run := tab_single ascii_upper sample_str_other pystr
               sample_fromisoformat sample_strftime sample_DataFrame_error
               (py "Token") (py "abc-123") true w in
  fst run = Raised AttributeError
  /\ ui (snd run) = [single_spinner]
  /\ last_single_raw (snd run) = Some (JList []).
Proof.
  intros r w.
  refine (tab_single_not_object ascii_upper sample_str_other pystr
            sample_fromisoformat sample_strftime sample_DataFrame_error
            (py "Token") (py "abc-123") w (py "secret") r (JList [])
            eq_refl _ eq_refl eq_refl _ eq_refl eq_refl).
  - discriminate.
  - simpl; lia.
Defined.

Lemma batch_summary_truthy_witness :
  let w := fresh_world None Fails in
  batch_summary
    (JList [JDict [(py "valid", JStr (py "no"))]; JDict []]) w
  = (Returned (2, 1, 1)%Z, w).
Proof.
  intros w.
  exact (proj1 (batch_summary_truthy
                  [JDict [(py "valid", JStr (py "no"))]; JDict []] w eq_refl)).
Defined.

Lemma render_batch_all_or_nothing_witness :
  let w := fresh_world None Fails in
  render_batch_results ascii_upper sample_str_other pystr
    sample_fromisoformat sample_strftime sample_DataFrame_error
    (JList [JDict [(py "valid", JBool true)]; JStr (py "oops")]) w
  = (Raised AttributeError, w).
Proof.
  intros w.
  exact (proj2 (render_batch_all_or_nothing ascii_upper sample_str_other
                  pystr sample_fromisoformat sample_strftime sample_DataFrame_error w)
           [JDict [(py "valid", JBool true)]; JStr (py "oops")] eq_refl).
Defined.

Lemma fmt_date_not_string_witness :
  let w := fresh_world None Fails in
  fmt_date pystr sample_fromisoformat sample_strftime (JInt 1700000000) w
  = (Returned (JInt 1700000000), w).
Proof.
  intros w.
  exact (fmt_date_not_string pystr sample_fromisoformat sample_strftime
           (JInt 1700000000) w eq_refl).
Defined.

Lemma handlers_store_last_response_witness :
  let r := {| status_code := 200; text := py "{...}";
              json := Some (JDict sample_invalid) |} in
  let w := fresh_world (Some (py "secret")) (Responds r) in
  let w' := snd (tab_single ascii_upper sample_str_other pystr
                   sample_fromisoformat sample_strftime sample_DataFrame_error
                   (py "Token") (py "abc-123") true w) in
  last_batch_raw w' = None
  /\ last_single_raw w' = Some (JDict sample_invalid).
Proof.
  intros r w.
  exact (proj1 (handlers_store_last_response ascii_upper sample_str_other
                  pystr sample_fromisoformat sample_strftime sample_DataFrame_error w)
           (py "Token") (py "abc-123") eq_refl).
Defined.

Lemma single_answer_is_batch_of_one_witness :
  let w := fresh_world None Fails in
  (rl <- results_list (JDict sample_invalid) ;; batch_summary rl) w
  = (Returned (1, 0, 1)%Z, w).
Proof.
  intros w.
  exact (single_answer_is_batch_of_one sample_invalid w eq_refl).
Defined.

Lemma render_batch_all_invalid_witness :
  let w := fresh_world None Fails in
  exists boxes,
    render_batch_results ascii_upper sample_str_other pystr
      sample_fromisoformat sample_strftime sample_DataFrame_error
      (JList [JDict sample_invalid; JDict []]) w
    = (Returned tt,
       log_ui ([StColumns 3;
                StMetric (py "Total") (JInt 2);
                StMetric (check_mark ++ py " Valid") (JInt 0);
                StMetric (cross_mark ++ py " Invalid") (JInt 2);
                StDivider] ++ boxes) w)
    /\ List.length boxes = 4
    /\ List.length (filter is_error_box boxes) = 2
    /\ Forall (fun e => match e with
                        | StExpander _ expanded => expanded = true
                        | StError _ => True
                        | _ => False
                        end) boxes.
Proof.
  intros w.
  refine (render_batch_all_invalid ascii_upper sample_str_other pystr
            sample_fromisoformat sample_strftime sample_DataFrame_error
            [sample_invalid; []] w _).
  repeat constructor.
Defined.

Lemma render_valid_never_fails_witness :
  let w := fresh_world None Fails in
  exists evs,
    render_single_result ascii_upper sample_str_other pystr
      sample_fromisoformat sample_strftime sample_DataFrame_error
      (JDict [(py "valid", JInt 1); (py "prescription_number", JInt 7);
              (py "medications", JList [JDict [(py "name", JStr (py "x"))]])])
      w
    = (Returned tt,
       log_ui (StSuccess (check_mark ++ py " Valid Prescription") :: evs) w)
    /\ Forall not_error evs.
Proof.
  intros w.
  exact (render_valid_never_fails ascii_upper sample_str_other pystr
           sample_fromisoformat sample_strftime sample_DataFrame_error
           [(py "valid", JInt 1); (py "prescription_number", JInt 7);
            (py "medications", JList [JDict [(py "name", JStr (py "x"))]])]
           w eq_refl (or_introl eq_refl) eq_refl (or_intror eq_refl)).
Defined.

Lemma render_falsy_is_invalid_witness :
  let w := fresh_world None Fails in
  exists reason,
    render_single_result ascii_upper sample_str_other pystr
      sample_fromisoformat sample_strftime sample_DataFrame_error (JDict []) w
    = (Returned tt,
       log_ui [StError (cross_mark ++ py " Invalid prescription " ++
                        em_dash ++ py " " ++ reason)] w)
    /\ (lookup (py "error") (@nil (pystr * JSON)) = None ->
        reason = py "Unknown error")
    /\ (forall e, lookup (py "error") (@nil (pystr * JSON)) = Some (JStr e) ->
        reason = e).
Proof.
  intros w.
  exact (proj1 (render_falsy_is_invalid ascii_upper sample_str_other pystr
                  sample_fromisoformat sample_strftime sample_DataFrame_error [] w eq_refl)).
Defined.

Lemma render_valid_refused_witness :
  let w := fresh_world None Fails in
  let d := [(py "valid", JBool true); (py "medications", JInt 7)] in
  exists evs,
    render_single_result ascii_upper sample_str_other pystr
      sample_fromisoformat sample_strftime sample_DataFrame_error (JDict d) w
    = (Raised ValueError,
       log_ui (evs ++ [StSubheader (pill ++ py " Medications")]) w)
    /\ Forall not_error evs
    /\ Forall (fun ev => match ev with
                         | StDataframe _ => False
                         | _ => True
                         end) evs.
Proof.
  intros w d.
  exact (proj2 (render_valid_refused ascii_upper sample_str_other pystr
                  sample_fromisoformat sample_strftime sample_DataFrame_error
                  d w eq_refl)
           em_dash ValueError eq_refl eq_refl eq_refl eq_refl).
Defined.
